(** * The Taler merchant MITM proxy: [talermerchantmitm/mitm.py]

    A shallow embedding of the forwarding handler [all], of the response
    transformations [track_transaction], [track_transfer] and [keys], and of
    the start-up code of [mitm.py] and [taler-merchant-mitm.py].

    Python [str] values are represented by Rocq strings (their UTF-8
    encoding); Python exceptions by an explicit error monad.  The library
    functions the handler calls ([urllib.parse], [werkzeug]'s header list,
    [flask.make_response], [request.get_json]) are transcribed from the
    libraries of the program's time (CPython 3.6, Werkzeug/Flask 0.12,
    requests 2.x); the JSON codec and the network are parameters. *)

From Stdlib Require Import String Ascii List Bool Arith ZArith Lia.
From Stdlib Require Import DecimalString.
Import ListNotations.
Local Open Scope list_scope.
Local Open Scope string_scope.

Set Warnings "-register-all".

(** ** Python strings *)

Module PyStr.

(** [c in s] for a one-character [c]. *)
Fixpoint contains (c : ascii) (s : string) : bool :=
  match s with
  | EmptyString => false
  | String a t => Ascii.eqb a c || contains c t
  end.

(** [s.split(c, 1)] when [c in s]: the text before and after the first
    occurrence of [c]; [None] when [c] does not occur. *)
Fixpoint split1 (c : ascii) (s : string) : option (string * string) :=
  match s with
  | EmptyString => None
  | String a t =>
      if Ascii.eqb a c then Some (EmptyString, t)
      else match split1 c t with
           | Some (l, r) => Some (String a l, r)
           | None => None
           end
  end.

(** The text before and after the last occurrence of [c]
    ([s[:s.rfind(c)]] and [s[s.rfind(c)+1:]]). *)
Fixpoint rsplit1 (c : ascii) (s : string) : option (string * string) :=
  match s with
  | EmptyString => None
  | String a t =>
      match rsplit1 c t with
      | Some (l, r) => Some (String a l, r)
      | None => if Ascii.eqb a c then Some (EmptyString, t) else None
      end
  end.

(** [s.split(c)]: always at least one element. *)
Fixpoint split (c : ascii) (s : string) : list string :=
  match s with
  | EmptyString => [EmptyString]
  | String a t =>
      if Ascii.eqb a c then EmptyString :: split c t
      else match split c t with
           | h :: r => String a h :: r
           | [] => [String a EmptyString]
           end
  end.

(** [sep.join(l)] *)
Fixpoint join (sep : string) (l : list string) : string :=
  match l with
  | [] => EmptyString
  | [x] => x
  | x :: r => x ++ sep ++ join sep r
  end.

(** The longest prefix without a character satisfying [p], and the rest. *)
Fixpoint span_until (p : ascii -> bool) (s : string) : string * string :=
  match s with
  | EmptyString => (EmptyString, EmptyString)
  | String a t =>
      if p a then (EmptyString, s)
      else let (l, r) := span_until p t in (String a l, r)
  end.

Fixpoint forallb (p : ascii -> bool) (s : string) : bool :=
  match s with
  | EmptyString => true
  | String a t => p a && forallb p t
  end.

Definition is_empty (s : string) : bool :=
  match s with EmptyString => true | _ => false end.

(** [s[:1] == c] *)
Definition starts_with_char (c : ascii) (s : string) : bool :=
  match s with String a _ => Ascii.eqb a c | EmptyString => false end.

(** [s[:2] == '//'], with the rest of the string *)
Definition strip_slash_slash (s : string) : option string :=
  match s with
  | String "/" (String "/" t) => Some t
  | _ => None
  end.

Definition is_upper (a : ascii) : bool :=
  let n := nat_of_ascii a in (Nat.leb 65 n && Nat.leb n 90)%bool.
Definition is_lower (a : ascii) : bool :=
  let n := nat_of_ascii a in (Nat.leb 97 n && Nat.leb n 122)%bool.
Definition is_digit (a : ascii) : bool :=
  let n := nat_of_ascii a in (Nat.leb 48 n && Nat.leb n 57)%bool.

Definition lower_ascii (a : ascii) : ascii :=
  if is_upper a then ascii_of_nat (nat_of_ascii a + 32) else a.

(** [s.lower()], on the ASCII letters (header names and URL schemes are
    ASCII). *)
Fixpoint lower (s : string) : string :=
  match s with
  | EmptyString => EmptyString
  | String a t => String (lower_ascii a) (lower t)
  end.

(** [x in l] for a list or tuple of strings. *)
Definition mem (x : string) (l : list string) : bool :=
  existsb (String.eqb x) l.

(** [str(n)] for a natural number. *)
Definition of_nat (n : nat) : string :=
  NilZero.string_of_uint (Nat.to_uint n).

End PyStr.

(** ** Exceptions *)

(** The classes derived from [Exception] that the program and its libraries
    raise. *)
Inductive exception : Type :=
| AssertionError
| ValueError (msg : string)
| JSONDecodeError              (* json.loads; a subclass of ValueError *)
| UnicodeDecodeError           (* a subclass of ValueError *)
| TypeError
| RecursionError
| MemoryError
| OverflowError
| BadRequest                   (* werkzeug.exceptions.BadRequest, HTTP 400 *)
| ConnectionError              (* requests.exceptions.ConnectionError *)
| Timeout                      (* requests.exceptions.Timeout *)
| MissingSchema                (* requests.exceptions.MissingSchema *)
| InvalidSchema
| InvalidURL.

(** [isinstance(e, ValueError)] *)
Definition is_ValueError (e : exception) : bool :=
  match e with
  | ValueError _ | JSONDecodeError | UnicodeDecodeError => true
  | _ => false
  end.

(** Everything that can be raised: [BaseException]. *)
Inductive base_exception : Type :=
| Exc (e : exception)
| SystemExit (code : Z)
| KeyboardInterrupt
| GeneratorExit.

(** The outcome of running Python code: a value, or a raised exception. *)
Inductive result (A : Type) : Type :=
| Ok (a : A)
| Raise (e : base_exception).
Arguments Ok {A} a.
Arguments Raise {A} e.

Definition bind {A B : Type} (m : result A) (k : A -> result B) : result B :=
  match m with
  | Ok a => k a
  | Raise e => Raise e
  end.

Declare Scope py_scope.
Delimit Scope py_scope with py.
Notation "x <- m ;; k" := (bind m (fun x => k))
  (at level 61, m at next level, right associativity) : py_scope.
Local Open Scope py_scope.

(** A library call that raises only classes derived from [Exception]. *)
Definition call {A : Type} (r : exception + A) : result A :=
  match r with
  | inr a => Ok a
  | inl e => Raise (Exc e)
  end.

(** [try: body  except Exception: handler] *)
Definition try_except_Exception {A : Type} (body handler : result A) : result A :=
  match body with
  | Ok a => Ok a
  | Raise (Exc _) => handler
  | Raise e => Raise e
  end.

(** ** [urllib.parse] *)

Module UrlParse.
Import PyStr.

Definition uses_relative : list string :=
  [""; "ftp"; "http"; "gopher"; "nntp"; "imap"; "wais"; "file"; "https";
   "shttp"; "mms"; "prospero"; "rtsp"; "rtspu"; "sftp"; "svn"; "svn+ssh";
   "ws"; "wss"].

Definition uses_netloc : list string :=
  [""; "ftp"; "http"; "gopher"; "nntp"; "telnet"; "imap"; "wais"; "file";
   "mms"; "https"; "shttp"; "snews"; "prospero"; "rtsp"; "rtspu"; "rsync";
   "svn"; "svn+ssh"; "sftp"; "nfs"; "git"; "git+ssh"; "ws"; "wss"].

Definition uses_params : list string :=
  [""; "ftp"; "hdl"; "prospero"; "http"; "imap"; "https"; "shttp"; "rtsp";
   "rtspu"; "sip"; "sips"; "mms"; "sftp"; "tel"].

Definition scheme_char (a : ascii) : bool :=
  is_lower a || is_upper a || is_digit a
  || Ascii.eqb a "+" || Ascii.eqb a "-" || Ascii.eqb a ".".

(** The six components of [urlparse]'s result, indexed 0 to 5. *)
Record ParseResult : Type := mkParse {
  scheme : string;
  netloc : string;
  path : string;
  params : string;
  query : string;
  fragment : string
}.

(** [_splitnetloc(url, 2)], applied to [url[2:]]: the domain ends at the
    first of [/], [?], [#]. *)
Definition splitnetloc (s : string) : string * string :=
  span_until (fun c => Ascii.eqb c "/" || Ascii.eqb c "?" || Ascii.eqb c "#") s.

Definition bad_brackets (nl : string) : bool :=
  (contains "[" nl && negb (contains "]" nl))
  || (contains "]" nl && negb (contains "[" nl)).

(** The part of [urlsplit] after the scheme has been taken off: network
    location, then fragment, then query. *)
Definition split_rest (sch url : string)
  : exception + (string * string * string * string * string) :=
  match
    (match strip_slash_slash url with
     | Some t =>
         let (nl, rest) := splitnetloc t in
         if bad_brackets nl then inl (ValueError "Invalid IPv6 URL")
         else inr (nl, rest)
     | None => inr (EmptyString, url)
     end)
  with
  | inl e => inl e
  | inr (nl, url1) =>
      let (url2, frag) :=
        match split1 "#" url1 with
        | Some (u, f) => (u, f)
        | None => (url1, EmptyString)
        end in
      let (url3, q) :=
        match split1 "?" url2 with
        | Some (u, q) => (u, q)
        | None => (url2, EmptyString)
        end in
      inr (sch, nl, url3, q, frag)
  end.

(** [urlsplit(url, scheme)] *)
Definition urlsplit (url default_scheme : string)
  : exception + (string * string * string * string * string) :=
  match split1 ":" url with
  | Some (pre, rest) =>
      if is_empty pre then split_rest default_scheme url
      else if String.eqb pre "http" then split_rest (lower pre) rest
      else if forallb scheme_char pre then
        if is_empty rest || negb (forallb is_digit rest)
        then split_rest (lower pre) rest
        else split_rest default_scheme url
      else split_rest default_scheme url
  | None => split_rest default_scheme url
  end.

(** [_splitparams(url)], called when [';' in url]. *)
Definition splitparams (url : string) : string * string :=
  match rsplit1 "/" url with
  | Some (dir, last) =>
      match split1 ";" last with
      | Some (l, p) => (dir ++ "/" ++ l, p)
      | None => (url, EmptyString)
      end
  | None =>
      match split1 ";" url with
      | Some (l, p) => (l, p)
      | None => (url, EmptyString)
      end
  end.

(** [urlparse(url, scheme)] *)
Definition urlparse_with (url default_scheme : string) : exception + ParseResult :=
  match urlsplit url default_scheme with
  | inl e => inl e
  | inr (sch, nl, u, q, f) =>
      if mem sch uses_params && contains ";" u
      then let (u', p) := splitparams u in inr (mkParse sch nl u' p q f)
      else inr (mkParse sch nl u EmptyString q f)
  end.

Definition urlparse (url : string) : exception + ParseResult :=
  urlparse_with url EmptyString.

(** [urlunsplit((scheme, netloc, url, query, fragment))] *)
Definition urlunsplit (sch nl url q f : string) : string :=
  let url :=
    if negb (is_empty nl)
       || (negb (is_empty sch) && mem sch uses_netloc
           && negb (match strip_slash_slash url with Some _ => true | None => false end))
    then
      let url := if negb (is_empty url) && negb (starts_with_char "/" url)
                 then "/" ++ url else url in
      "//" ++ nl ++ url
    else url in
  let url := if negb (is_empty sch) then sch ++ ":" ++ url else url in
  let url := if negb (is_empty q) then url ++ "?" ++ q else url in
  let url := if negb (is_empty f) then url ++ "#" ++ f else url in
  url.

(** [urlunparse(components)] *)
Definition urlunparse (c : ParseResult) : string :=
  let url := if negb (is_empty (params c))
             then path c ++ ";" ++ params c else path c in
  urlunsplit (scheme c) (netloc c) url (query c) (fragment c).

(** [segments[1:-1] = filter(None, segments[1:-1])] *)
Definition filter_middle (segments : list string) : list string :=
  match segments with
  | [] => []
  | first :: rest =>
      match rev rest with
      | [] => [first]
      | last :: rmid =>
          first :: (filter (fun s => negb (is_empty s)) (rev rmid) ++ [last])%list
      end
  end.

(** The loop of [urljoin] that resolves [.] and [..]. *)
Fixpoint resolve (segments resolved_path : list string) : list string :=
  match segments with
  | [] => resolved_path
  | seg :: r =>
      if String.eqb seg ".." then resolve r (removelast resolved_path)
      else if String.eqb seg "." then resolve r resolved_path
      else resolve r (resolved_path ++ [seg])%list
  end.

(** [urljoin(base, url)] *)
Definition urljoin (base url : string) : exception + string :=
  if is_empty base then inr url
  else if is_empty url then inr base
  else
    match urlparse base with
    | inl e => inl e
    | inr b =>
        match urlparse_with url (scheme b) with
        | inl e => inl e
        | inr u =>
            if negb (String.eqb (scheme u) (scheme b))
               || negb (mem (scheme u) uses_relative)
            then inr url
            else if mem (scheme u) uses_netloc && negb (is_empty (netloc u))
            then inr (urlunparse u)
            else
              let nl := if mem (scheme u) uses_netloc
                        then netloc b else netloc u in
              if is_empty (path u) && is_empty (params u) then
                inr (urlunparse
                       (mkParse (scheme u) nl (path b) (params b)
                                (if is_empty (query u) then query b else query u)
                                (fragment u)))
              else
                let base_parts := split "/" (path b) in
                let base_parts :=
                  if negb (is_empty (last base_parts EmptyString))
                  then removelast base_parts else base_parts in
                let segments :=
                  if starts_with_char "/" (path u) then split "/" (path u)
                  else filter_middle (base_parts ++ split "/" (path u))%list in
                let resolved_path := resolve segments [] in
                let resolved_path :=
                  if mem (last segments EmptyString) ["."; ".."]
                  then (resolved_path ++ [EmptyString])%list else resolved_path in
                let joined := join "/" resolved_path in
                inr (urlunparse
                       (mkParse (scheme u) nl
                                (if is_empty joined then "/" else joined)
                                (params u) (query u) (fragment u)))
        end
    end.

End UrlParse.

Import UrlParse.

(** ** Python values exchanged as JSON *)

(** What [json.loads] returns and [json.dumps] accepts.  JSON [null] is
    Python's [None]; a float is identified by its [repr]; a [dict] keeps its
    items in insertion order. *)
Inductive pyobj : Type :=
| PyNone
| PyBool (b : bool)
| PyInt (z : Z)
| PyFloat (repr : string)
| PyStr (s : string)
| PyList (l : list pyobj)
| PyDict (items : list (string * pyobj)).

(** [v is None] *)
Definition is_None (v : pyobj) : bool :=
  match v with PyNone => true | _ => false end.

(** ** [werkzeug.datastructures.Headers] *)

Module Headers.

(** The list of [(key, value)] pairs a [Headers] object holds. *)
Definition t : Type := list (string * string).

Definition key_is (ikey : string) (kv : string * string) : bool :=
  String.eqb (PyStr.lower (fst kv)) ikey.

(** [headers.get(key)]: the value of the first entry whose key equals
    [key] up to case. *)
Definition get (l : t) (key : string) : option string :=
  match find (key_is (PyStr.lower key)) l with
  | Some kv => Some (snd kv)
  | None => None
  end.

(** The loop of [Headers.set] over a non-empty list: the first entry with
    this key is replaced, the later ones are removed; without such an
    entry the pair is appended. *)
Fixpoint set_loop (l : t) (key value : string) : t :=
  match l with
  | [] => [(key, value)]
  | kv :: r =>
      if key_is (PyStr.lower key) kv
      then (key, value) :: filter (fun t => negb (key_is (PyStr.lower key) t)) r
      else kv :: set_loop r key value
  end.

(** [headers[key] = value], that is [headers.set(key, value)]. *)
Definition set (l : t) (key value : string) : t := set_loop l key value.

End Headers.

(** ** [requests] *)

(** The part of a [requests.Response] the program reads, and the body it
    was made from.  [headers] are the items of its case-insensitive
    dictionary, in iteration order; [content] is the body as received;
    [text] is that body decoded to a [str] with the charset of the response
    (the one of its content type, or a detected one). *)
Record Response : Type := mkResponse {
  status_code : Z;
  headers : list (string * string);
  content : string;
  text : string
}.

(** The keys of a [CaseInsensitiveDict] are unique up to case. *)
Definition case_insensitive_dict (items : list (string * string)) : Prop :=
  NoDup (map (fun kv => PyStr.lower (fst kv)) items).

Inductive http_method : Type := GET | POST.

(** One call [requests.get(url, json=json)] or [requests.post(url, json=json)]. *)
Record UpstreamCall : Type := mkCall {
  call_method : http_method;
  call_url : string;
  call_json : pyobj
}.

(** ** [flask] *)

(** The part of [flask.request] the program reads. *)
Record Request : Type := mkRequest {
  method : string;
  url : string;
  req_headers : Headers.t;
  mimetype : string;
  data : string
}.

(** The response object a view builds. *)
Record FlaskResponse : Type := mkFlaskResponse {
  resp_data : string;
  resp_status : Z;
  resp_headers : Headers.t
}.

(** [s.endswith(suffix)] *)
Definition endswith (s suffix : string) : bool :=
  let n := String.length s in
  let m := String.length suffix in
  Nat.leb m n && String.eqb (substring (n - m) m s) suffix.

(** [request.is_json] *)
Definition is_json (req : Request) : bool :=
  let mt := mimetype req in
  String.eqb mt "application/json"
  || (prefix "application/" mt && endswith mt "+json").

(** [make_response(body)] for a [str] body: [Response.__init__] sets the
    default content type, and [set_data] the length of the encoded body. *)
Definition make_response (body : string) : FlaskResponse :=
  let h := Headers.set [] "Content-Type" "text/html; charset=utf-8" in
  let h := Headers.set h "Content-Length" (PyStr.of_nat (String.length body)) in
  mkFlaskResponse body 200 h.

(** What Flask does with the pair [(response, status)] a view returns:
    [rv.status_code = status]. *)
Definition finalize (rv : FlaskResponse * Z) : FlaskResponse :=
  let (response, status) := rv in
  mkFlaskResponse (resp_data response) status (resp_headers response).

(** ** The program *)

Module Mitm.
Section Program.

(** [json.loads] and [json.dumps]; they raise classes derived from
    [Exception] only. *)
Variable json_loads : string -> exception + pyobj.
Variable json_dumps : pyobj -> exception + string.

(** The network: what a call of [requests.get] or [requests.post] returns
    or raises. *)
Variable send : UpstreamCall -> result Response.

(** The module's global [exchange_url]. *)
Variable exchange_url : string.

(** [resp.json()] *)
Definition resp_json (resp : Response) : exception + pyobj :=
  json_loads (text resp).

(** [request.get_json()]: [None] unless the request is marked as JSON; a
    [ValueError] of the parser becomes [BadRequest]. *)
Definition get_json (req : Request) : result pyobj :=
  if negb (is_json req) then Ok PyNone
  else match json_loads (data req) with
       | inr rv => Ok rv
       | inl e => if is_ValueError e then Raise (Exc BadRequest)
                  else Raise (Exc e)
       end.

(** The body [requests] puts on the wire for [json=...]: none for [None],
    the serialisation otherwise. *)
Definition prepared_body (c : UpstreamCall) : result (option string) :=
  if is_None (call_json c) then Ok None
  else s <- call (json_dumps (call_json c)) ;; Ok (Some s).

Definition track_transaction (resp : Response) : result string :=
  Ok (text resp).

Definition track_transfer (resp : Response) : result string :=
  Ok (text resp).

Definition keys (resp : Response) : result string :=
  try_except_Exception
    (keys <- call (resp_json resp) ;;
     call (json_dumps keys))
    (Ok (text resp)).

Definition dispatcher : list (string * (Response -> result string)) :=
  [("track_transaction", track_transaction);
   ("track_transfer", track_transfer);
   ("keys", keys)].

(** [d.get(key, default)], where [key] is [None] or a string. *)
Definition dict_get {V : Type} (d : list (string * V)) (key : option string)
    (default : V) : V :=
  match key with
  | None => default
  | Some k =>
      match find (fun kv => String.eqb (fst kv) k) d with
      | Some kv => snd kv
      | None => default
      end
  end.

(** [url[0] = xurl[0]; url[1] = xurl[1]] *)
Definition rewrite (url xurl : ParseResult) : ParseResult :=
  mkParse (scheme xurl) (netloc xurl)
          (UrlParse.path url) (params url) (query url) (fragment url).

(** The value of [url] after line 62. *)
Definition rewritten_url (req : Request) : result string :=
  url <- call (urlparse (url req)) ;;
  xurl <- call (urlparse exchange_url) ;;
  Ok (urlunparse (rewrite url xurl)).

(** The URL the request is forwarded to: [urljoin(url, path)]. *)
Definition target_url (path : string) (req : Request) : result string :=
  url <- rewritten_url req ;;
  call (urljoin url path).

(** Lines 57 to 66, up to the call of [requests]. *)
Definition upstream_call (path : string) (req : Request) : result UpstreamCall :=
  body <- get_json req ;;
  target <- target_url path req ;;
  if String.eqb "POST" (method req)
  then Ok (mkCall POST target body)
  else Ok (mkCall GET target body).

(** The loop of lines 75 to 77. *)
Definition copy_headers (items : list (string * string))
    (response : FlaskResponse) : FlaskResponse :=
  fold_left
    (fun (response : FlaskResponse) (kv : string * string) =>
       let (key, value) := kv in
       if negb (PyStr.mem key ["Server"; "Content-Length"])
       then mkFlaskResponse (resp_data response) (resp_status response)
              (Headers.set (resp_headers response) key value)
       else response)
    items response.

(** The view function [all]. *)
Definition all (path : string) (req : Request) : result (FlaskResponse * Z) :=
  c <- upstream_call path req ;;
  r <- send c ;;
  let func := dict_get dispatcher (Headers.get (req_headers req) "X-Taler-Mitm")
                (fun x => Ok (text x)) in
  body <- func r ;;
  let response := make_response body in
  let response := copy_headers (headers r) response in
  Ok (response, status_code r).

End Program.
End Mitm.

Import Mitm.

(** ** Start-up *)

(** [os.environ.get(name)] *)
Definition environ_get (environ : list (string * string)) (name : string)
  : option string :=
  match find (fun kv => String.eqb (fst kv) name) environ with
  | Some kv => Some (snd kv)
  | None => None
  end.

(** Lines 37 and 38 of the module: the value of [exchange_url] after import,
    or the failed assertion. *)
Definition module_init (environ : list (string * string)) : result string :=
  let exchange_url := environ_get environ "TALER_EXCHANGE_URL" in
  match exchange_url with
  | None => Raise (Exc AssertionError)
  | Some u => Ok u
  end.

(** The parsed command line of [taler-merchant-mitm.py]. *)
Record Args : Type := mkArgs {
  args_exchange_url : option string;
  args_port : Z
}.

(** [taler-merchant-mitm.py] after [parse_args]: [sys.exit(1)] without an
    exchange URL. *)
Definition script_main (args : Args) : result unit :=
  match args_exchange_url args with
  | None => Raise (SystemExit 1)
  | Some _ => Ok tt
  end.

(** [key in ("Server", "Content-Length")], the test of line 76. *)
Definition excluded (key : string) : bool :=
  PyStr.mem key ["Server"; "Content-Length"].

(** The application after import: the view bound to the configured URL, or
    the exception that stopped the import. *)
Definition app (json_loads : string -> exception + pyobj)
    (json_dumps : pyobj -> exception + string)
    (send : UpstreamCall -> result Response)
    (environ : list (string * string))
  : result (string -> Request -> result (FlaskResponse * Z)) :=
  exchange_url <- module_init environ ;;
  Ok (all json_loads json_dumps send exchange_url).

(** The request [req] sent with the method [m] instead of its own. *)
Definition with_method (m : string) (req : Request) : Request :=
  mkRequest m (url req) (req_headers req) (mimetype req) (data req).

(** A string that [urlparse] splits into a non-empty scheme and a non-empty
    network location. *)
Definition is_absolute_url (u : string) : bool :=
  match urlparse u with
  | inr p => negb (PyStr.is_empty (scheme p)) && negb (PyStr.is_empty (netloc p))
  | inl _ => false
  end.

(** ** A JSON codec for the examples

    An instance of the two parameters [json_loads] and [json_dumps], used to
    run the program on concrete requests.  It agrees with Python's [json] on
    documents made of objects, arrays, integers, [true], [false], [null] and
    strings of printable ASCII characters with the short escapes; anything
    else (floats, [\u] escapes) it rejects with [JSONDecodeError].  The
    theorems about the program hold for every codec, not only for this one. *)

Module MiniJson.

Definition dquote : ascii := ascii_of_nat 34.
Definition backslash : ascii := ascii_of_nat 92.
Definition dq : string := String dquote EmptyString.

Definition is_ws (c : ascii) : bool :=
  let n := nat_of_ascii c in
  Nat.eqb n 32 || Nat.eqb n 9 || Nat.eqb n 10 || Nat.eqb n 13.

Fixpoint skip_ws (s : string) : string :=
  match s with
  | String c t => if is_ws c then skip_ws t else s
  | EmptyString => s
  end.

Fixpoint strip_prefix (p s : string) : option string :=
  match p, s with
  | EmptyString, _ => Some s
  | String a p', String b s' => if Ascii.eqb a b then strip_prefix p' s' else None
  | String _ _, EmptyString => None
  end.

Definition unescape (e : ascii) : option ascii :=
  if Ascii.eqb e dquote then Some dquote
  else if Ascii.eqb e backslash then Some backslash
  else if Ascii.eqb e "/" then Some "/"%char
  else if Ascii.eqb e "n" then Some (ascii_of_nat 10)
  else if Ascii.eqb e "r" then Some (ascii_of_nat 13)
  else if Ascii.eqb e "t" then Some (ascii_of_nat 9)
  else if Ascii.eqb e "b" then Some (ascii_of_nat 8)
  else if Ascii.eqb e "f" then Some (ascii_of_nat 12)
  else None.

Definition cons_char (c : ascii) (r : option (string * string))
  : option (string * string) :=
  match r with
  | Some (s, rest) => Some (String c s, rest)
  | None => None
  end.

(** The characters of a string literal after its opening quote, and the
    text after its closing quote. *)
Fixpoint parse_string (s : string) : option (string * string) :=
  match s with
  | EmptyString => None
  | String c t =>
      if Ascii.eqb c dquote then Some (EmptyString, t)
      else if Ascii.eqb c backslash then
        match t with
        | String e t' =>
            match unescape e with
            | Some c' => cons_char c' (parse_string t')
            | None => None
            end
        | EmptyString => None
        end
      else if Nat.ltb (nat_of_ascii c) 32 || Nat.leb 127 (nat_of_ascii c) then None
      else cons_char c (parse_string t)
  end.

Fixpoint parse_digits (s : string) (acc : Z) : Z * string :=
  match s with
  | String c t =>
      if PyStr.is_digit c
      then parse_digits t (10 * acc + Z.of_nat (nat_of_ascii c - 48))%Z
      else (acc, s)
  | EmptyString => (acc, s)
  end.

Definition starts_float_tail (s : string) : bool :=
  match s with
  | String c _ => Ascii.eqb c "." || Ascii.eqb c "e" || Ascii.eqb c "E"
  | EmptyString => false
  end.

(** [0] or a non-zero digit followed by digits. *)
Definition parse_nat (s : string) : option (Z * string) :=
  match s with
  | String c t =>
      if Ascii.eqb c "0" then
        if starts_float_tail t then None else Some (0%Z, t)
      else if PyStr.is_digit c then
        let (z, rest) := parse_digits s 0%Z in
        if starts_float_tail rest then None else Some (z, rest)
      else None
  | EmptyString => None
  end.

Definition parse_int (s : string) : option (Z * string) :=
  match s with
  | String c t =>
      if Ascii.eqb c "-" then
        match parse_nat t with
        | Some (z, rest) => Some ((- z)%Z, rest)
        | None => None
        end
      else parse_nat s
  | EmptyString => None
  end.

(** [d[k] = v] on the items of a dict. *)
Fixpoint dict_set (items : list (string * pyobj)) (k : string) (v : pyobj)
  : list (string * pyobj) :=
  match items with
  | [] => [(k, v)]
  | (k', v') :: r =>
      if String.eqb k' k then (k, v) :: r else (k', v') :: dict_set r k v
  end.

Definition dict_of_pairs (pairs : list (string * pyobj)) : list (string * pyobj) :=
  fold_left (fun d kv => dict_set d (fst kv) (snd kv)) pairs [].

Fixpoint parse_value (fuel : nat) (s : string) : option (pyobj * string) :=
  match fuel with
  | O => None
  | S fuel =>
      match skip_ws s with
      | EmptyString => None
      | String c t as s' =>
          if Ascii.eqb c dquote then
            match parse_string t with
            | Some (str, rest) => Some (PyStr str, rest)
            | None => None
            end
          else if Ascii.eqb c "[" then
            match strip_prefix "]" (skip_ws t) with
            | Some rest => Some (PyList [], rest)
            | None =>
                match parse_elements fuel t with
                | Some (l, rest) => Some (PyList l, rest)
                | None => None
                end
            end
          else if Ascii.eqb c "{" then
            match strip_prefix "}" (skip_ws t) with
            | Some rest => Some (PyDict [], rest)
            | None =>
                match parse_members fuel t with
                | Some (l, rest) => Some (PyDict (dict_of_pairs l), rest)
                | None => None
                end
            end
          else
            match strip_prefix "null" s' with
            | Some rest => Some (PyNone, rest)
            | None =>
            match strip_prefix "true" s' with
            | Some rest => Some (PyBool true, rest)
            | None =>
            match strip_prefix "false" s' with
            | Some rest => Some (PyBool false, rest)
            | None =>
            match parse_int s' with
            | Some (z, rest) => Some (PyInt z, rest)
            | None => None
            end end end end
      end
  end
with parse_elements (fuel : nat) (s : string) : option (list pyobj * string) :=
  match fuel with
  | O => None
  | S fuel =>
      match parse_value fuel s with
      | Some (v, rest) =>
          match skip_ws rest with
          | String c rest' =>
              if Ascii.eqb c "," then
                match parse_elements fuel rest' with
                | Some (l, rest'') => Some (v :: l, rest'')
                | None => None
                end
              else if Ascii.eqb c "]" then Some ([v], rest')
              else None
          | EmptyString => None
          end
      | None => None
      end
  end
with parse_members (fuel : nat) (s : string)
  : option (list (string * pyobj) * string) :=
  match fuel with
  | O => None
  | S fuel =>
      match skip_ws s with
      | String c t =>
          if Ascii.eqb c dquote then
            match parse_string t with
            | Some (k, rest) =>
                match strip_prefix ":" (skip_ws rest) with
                | Some rest1 =>
                    match parse_value fuel rest1 with
                    | Some (v, rest2) =>
                        match skip_ws rest2 with
                        | String c' rest3 =>
                            if Ascii.eqb c' "," then
                              match parse_members fuel rest3 with
                              | Some (l, rest4) => Some ((k, v) :: l, rest4)
                              | None => None
                              end
                            else if Ascii.eqb c' "}" then Some ([(k, v)], rest3)
                            else None
                        | EmptyString => None
                        end
                    | None => None
                    end
                | None => None
                end
            | None => None
            end
          else None
      | EmptyString => None
      end
  end.

Definition loads (s : string) : exception + pyobj :=
  match parse_value (2 * String.length s + 2) s with
  | Some (v, rest) =>
      if PyStr.is_empty (skip_ws rest) then inr v else inl JSONDecodeError
  | None => inl JSONDecodeError
  end.

Fixpoint escape (s : string) : string :=
  match s with
  | EmptyString => EmptyString
  | String c t =>
      let n := nat_of_ascii c in
      if Ascii.eqb c dquote then String backslash (String dquote (escape t))
      else if Ascii.eqb c backslash then String backslash (String backslash (escape t))
      else if Nat.eqb n 10 then String backslash (String "n" (escape t))
      else if Nat.eqb n 13 then String backslash (String "r" (escape t))
      else if Nat.eqb n 9 then String backslash (String "t" (escape t))
      else if Nat.eqb n 8 then String backslash (String "b" (escape t))
      else if Nat.eqb n 12 then String backslash (String "f" (escape t))
      else String c (escape t)
  end.

Definition quote (s : string) : string := dq ++ escape s ++ dq.

Definition string_of_Z (z : Z) : string :=
  NilZero.string_of_int (Z.to_int z).

(** [json.dumps(v)] with the default separators [", "] and [": "]. *)
Fixpoint dumps_obj (v : pyobj) : string :=
  match v with
  | PyNone => "null"
  | PyBool true => "true"
  | PyBool false => "false"
  | PyInt z => string_of_Z z
  | PyFloat r => r
  | PyStr s => quote s
  | PyList l => "[" ++ PyStr.join ", " (map dumps_obj l) ++ "]"
  | PyDict items =>
      "{" ++ PyStr.join ", "
               (map (fun kv : string * pyobj =>
                       let (k, x) := kv in quote k ++ ": " ++ dumps_obj x)
                    items) ++ "}"
  end.

Definition dumps (v : pyobj) : exception + string := inr (dumps_obj v).

End MiniJson.

(** ** Concrete requests and responses *)

Module Examples.
Import MiniJson.

(** [GET http://localhost:5000/track/transfer?wtid=ABC], which Flask routes
    to [all] with the path [track/transfer]. *)
Definition req_track_transfer : Request :=
  mkRequest "GET" "http://localhost:5000/track/transfer?wtid=ABC" [] "" "".

(** [GET http://localhost:5000/keys?x=1] with the directive [keys]. *)
Definition req_keys : Request :=
  mkRequest "GET" "http://localhost:5000/keys?x=1"
            [("Host", "localhost:5000"); ("X-Taler-Mitm", "keys")] "" "".

(** [GET http://localhost:5000/keys] with the directive [bogus]. *)
Definition req_bogus : Request :=
  mkRequest "GET" "http://localhost:5000/keys"
            [("Host", "localhost:5000"); ("X-Taler-Mitm", "bogus")] "" "".

(** The JSON text [{"x":5}]. *)
Definition json_x5 : string := "{" ++ dq ++ "x" ++ dq ++ ":5}".

(** The JSON text [{"a":1}] and its re-serialisation [{"a": 1}]. *)
Definition json_a1 : string := "{" ++ dq ++ "a" ++ dq ++ ":1}".
Definition json_a1_dumped : string := "{" ++ dq ++ "a" ++ dq ++ ": 1}".

(** [POST http://localhost:5000/track/transaction] with the JSON body
    [{"x":5}]; Flask routes it with the path [track/transaction]. *)
Definition req_post_track_transaction : Request :=
  mkRequest "POST" "http://localhost:5000/track/transaction"
            [("Content-Type", "application/json")] "application/json" json_x5.

(** [GET http://localhost:5000/keys] with the JSON body [{"x":5}]. *)
Definition req_get_json_body : Request :=
  mkRequest "GET" "http://localhost:5000/keys"
            [("Content-Type", "application/json")] "application/json" json_x5.

(** The same body sent as [text/plain]. *)
Definition req_get_text_plain : Request :=
  mkRequest "GET" "http://localhost:5000/keys"
            [("Content-Type", "text/plain")] "text/plain" json_x5.

(** An upstream answer [200] with body [{"a":1}]. *)
Definition resp_a1 : Response :=
  mkResponse 200
    [("Server", "nginx"); ("Content-Type", "application/json");
     ("Content-Length", "7"); ("Cache-Control", "no-cache")]
    json_a1 json_a1.

(** An upstream answer [200] with a body that is not JSON. *)
Definition resp_not_json : Response :=
  mkResponse 200
    [("Server", "nginx"); ("Content-Type", "text/plain");
     ("Content-Length", "8")]
    "not json" "not json".

(** An upstream answer [404]. *)
Definition resp_404 : Response :=
  mkResponse 404
    [("Server", "nginx"); ("Content-Type", "text/plain");
     ("Content-Length", "9")]
    "not found" "not found".

(** What [str(content, 'ISO-8859-1')] is, as UTF-8: a byte below 128 stands
    for itself, a byte [b] from 128 on for the two bytes of the code point
    [b]. *)
Fixpoint latin1_decode (bytes : string) : string :=
  match bytes with
  | EmptyString => EmptyString
  | String b t =>
      let n := nat_of_ascii b in
      if Nat.ltb n 128 then String b (latin1_decode t)
      else String (ascii_of_nat (192 + n / 64))
             (String (ascii_of_nat (128 + n mod 64)) (latin1_decode t))
  end.

(** The four bytes of [caf] followed by e-acute in ISO-8859-1. *)
Definition cafe_latin1 : string := "caf" ++ String (ascii_of_nat 233) EmptyString.

(** An upstream answer [200] whose body is ISO-8859-1 text. *)
Definition resp_latin1 : Response :=
  mkResponse 200
    [("Server", "nginx"); ("Content-Type", "text/plain; charset=ISO-8859-1");
     ("Content-Length", "4")]
    cafe_latin1 (latin1_decode cafe_latin1).

(** A network on which every call is answered by [r]. *)
Definition answers (r : Response) : UpstreamCall -> result Response :=
  fun _ => Ok r.

(** A network on which every connection is refused. *)
Definition refuses : UpstreamCall -> result Response :=
  fun _ => Raise (Exc ConnectionError).

End Examples.

(** ** The first version of the proxy: [mitm/mitm.py]

    The same forwarding as above (lines 55 to 64 are lines 57 to 66 of the
    later file); the answer is then built with [flask.jsonify] from the
    parsed upstream body. *)

Module MitmV1.

(** The outcome of the older view: besides the exceptions above, the
    [KeyError] of a dictionary lookup. *)
Inductive outcome (A : Type) : Type :=
| Returned (a : A)
| KeyError (key : string)
| Raised (e : base_exception).
Arguments Returned {A} a.
Arguments KeyError {A} key.
Arguments Raised {A} e.

Definition of_result {A : Type} (r : result A) : outcome A :=
  match r with
  | Ok a => Returned a
  | Raise e => Raised e
  end.

Definition obind {A B : Type} (m : outcome A) (k : A -> outcome B) : outcome B :=
  match m with
  | Returned a => k a
  | KeyError key => KeyError key
  | Raised e => Raised e
  end.

(** [r.headers[key]] on the case-insensitive dictionary of [requests]: the
    value stored under the lower-cased key, or [KeyError] of that key. *)
Definition cid_getitem (items : list (string * string)) (key : string)
  : outcome string :=
  match find (fun kv => String.eqb (PyStr.lower (fst kv)) (PyStr.lower key)) items with
  | Some kv => Returned (snd kv)
  | None => KeyError (PyStr.lower key)
  end.

Section Program.

Variable json_loads : string -> exception + pyobj.
Variable send : UpstreamCall -> result Response.
Variable exchange_url : string.

(** [flask.jsonify], applied to one value. *)
Variable jsonify : pyobj -> result FlaskResponse.

Definition track_transaction (resp : pyobj) : pyobj := resp.

Definition track_transfer (resp : pyobj) : pyobj := resp.

Definition dispatcher : list (string * (pyobj -> pyobj)) :=
  [("track_transaction", track_transaction);
   ("track_transfer", track_transfer)].

(** Lines 65 to 67: [resp] is an empty dictionary unless the content type
    is exactly [application/json]. *)
Definition parsed_body (r : Response) : outcome pyobj :=
  obind (cid_getitem (headers r) "Content-Type") (fun ct =>
  if String.eqb "application/json" ct
  then of_result (call (Mitm.resp_json json_loads r))
  else Returned (PyDict [])).

(** The view function [all] of [mitm/mitm.py]. *)
Definition all (path : string) (req : Request) : outcome (FlaskResponse * Z) :=
  obind (of_result (Mitm.upstream_call json_loads exchange_url path req)) (fun c =>
  obind (of_result (send c)) (fun r =>
  obind (parsed_body r) (fun resp =>
  let func := Mitm.dict_get dispatcher
                (Headers.get (req_headers req) "X-Taler-Mitm") (fun x => x) in
  obind (of_result (jsonify (func resp))) (fun response =>
  Returned (response, status_code r))))).

End Program.
End MitmV1.

(** The key of a header, lower-cased. *)
Definition lower_key (kv : string * string) : string := PyStr.lower (fst kv).

(** ** Paths made of plain segments *)


(** ** Concrete data for the first version *)

Module ExamplesV1.
Import MiniJson.

(** [jsonify] as Flask 0.11 and later do it for one argument: the
    serialisation followed by a newline, as [application/json]. *)
Definition jsonify (v : pyobj) : result FlaskResponse :=
  let body := dumps_obj v ++ String (ascii_of_nat 10) EmptyString in
  Ok (mkFlaskResponse body 200
        [("Content-Type", "application/json");
         ("Content-Length", PyStr.of_nat (String.length body))]).

(** An upstream answer without a [Content-Type] header. *)
Definition resp_untyped : Response :=
  mkResponse 200 [("Server", "nginx"); ("Content-Length", "7")]
             Examples.json_a1 Examples.json_a1.

(** An upstream answer whose content type carries a charset. *)
Definition resp_json_charset : Response :=
  mkResponse 200
    [("Server", "nginx"); ("content-type", "application/json; charset=utf-8")]
    Examples.json_a1 Examples.json_a1.

(** An upstream answer marked as JSON whose body is not JSON. *)
Definition resp_bad_json : Response :=
  mkResponse 502 [("Content-Type", "application/json")] "oops" "oops".

(** An upstream answer that spells its headers in lower case. *)
Definition resp_lowercase : Response :=
  mkResponse 200
    [("server", "nginx"); ("content-type", "application/json");
     ("content-length", "7")]
    Examples.json_a1 Examples.json_a1.

(** A request marked as JSON whose body is not JSON. *)
Definition req_bad_json : Request :=
  mkRequest "POST" "http://localhost:5000/keys"
            [("Content-Type", "application/json")] "application/json" "{oops".

(** [GET http://localhost:5000/keys] with the directive
    [track_transaction]. *)
Definition req_track_directive : Request :=
  mkRequest "GET" "http://localhost:5000/keys"
            [("X-Taler-Mitm", "track_transaction")] "" "".

(** [GET http://localhost:5000/?a=1#top], which Flask routes to [all] with
    the empty path. *)
Definition req_root : Request :=
  mkRequest "GET" "http://localhost:5000/?a=1#top" [] "" "".

(** An exchange URL with an unclosed bracket in its network location. *)
Definition bad_exchange_url : string := "http://[::1/".

End ExamplesV1.

(** * Properties *)

(** ** The header list *)

Module HeadersFacts.
Import Headers.

Lemma key_is_lower (k : string) (v : string) :
  key_is (PyStr.lower k) (k, v) = true.
Proof. unfold key_is; simpl. apply String.eqb_refl. Qed.

Lemma key_is_other (k k' : string) (v : string) :
  PyStr.lower k <> PyStr.lower k' ->
  key_is (PyStr.lower k') (k, v) = false.
Proof. intros H. unfold key_is; simpl. now apply String.eqb_neq. Qed.

Lemma find_filter_other (ik ik' : string) (l : t) :
  ik <> ik' ->
  find (key_is ik') (filter (fun e => negb (key_is ik e)) l)
  = find (key_is ik') l.
Proof.
  intros Hne. induction l as [|kv r IH]; simpl; [reflexivity|].
  destruct (key_is ik kv) eqn:Hk; simpl.
  - assert (key_is ik' kv = false) as ->; [|exact IH].
    unfold key_is in *. apply String.eqb_eq in Hk. apply String.eqb_neq.
    congruence.
  - now rewrite IH.
Qed.

(** After [headers[key] = value], [key] has that value. *)
Lemma get_set_same (l : t) (k v : string) : get (set l k v) k = Some v.
Proof.
  unfold get, set.
  induction l as [|kv r IH]; simpl.
  - now rewrite key_is_lower.
  - destruct (key_is (PyStr.lower k) kv) eqn:Hk; simpl.
    + now rewrite key_is_lower.
    + now rewrite Hk.
Qed.

(** [headers[key] = value] leaves the keys that differ up to case alone. *)
Lemma get_set_other (l : t) (k v k' : string) :
  PyStr.lower k <> PyStr.lower k' ->
  get (set l k v) k' = get l k'.
Proof.
  intros Hne. unfold get, set.
  induction l as [|kv r IH]; simpl.
  - now rewrite key_is_other.
  - destruct (key_is (PyStr.lower k) kv) eqn:Hk; simpl.
    + rewrite key_is_other by assumption.
      rewrite find_filter_other by assumption.
      assert (key_is (PyStr.lower k') kv = false) as ->; [|reflexivity].
      unfold key_is in *. apply String.eqb_eq in Hk. apply String.eqb_neq.
      congruence.
    + destruct (key_is (PyStr.lower k') kv); [reflexivity|].
      destruct (find (key_is (PyStr.lower k')) (set_loop r k v)),
               (find (key_is (PyStr.lower k')) r); congruence.
Qed.

End HeadersFacts.

(** ** The loop that copies the upstream headers *)

Lemma excluded_false (k : string) :
  k <> "Server" -> k <> "Content-Length" -> excluded k = false.
Proof.
  intros H1 H2. unfold excluded, PyStr.mem; simpl.
  apply String.eqb_neq in H1, H2. now rewrite H1, H2.
Qed.

Lemma copy_headers_cons (kv : string * string) (items : list (string * string))
    (response : FlaskResponse) :
  copy_headers (kv :: items) response
  = copy_headers items
      (if negb (excluded (fst kv))
       then mkFlaskResponse (resp_data response) (resp_status response)
              (Headers.set (resp_headers response) (fst kv) (snd kv))
       else response).
Proof. destruct kv; reflexivity. Qed.

(** The loop touches neither the body nor the status of the response. *)
Lemma copy_headers_data (items : list (string * string)) (response : FlaskResponse) :
  resp_data (copy_headers items response) = resp_data response
  /\ resp_status (copy_headers items response) = resp_status response.
Proof.
  revert response. induction items as [|kv r IH]; intros response.
  - split; reflexivity.
  - rewrite copy_headers_cons.
    destruct (IH (if negb (excluded (fst kv))
                 then mkFlaskResponse (resp_data response) (resp_status response)
                        (Headers.set (resp_headers response) (fst kv) (snd kv))
                 else response)) as [Hd Hs].
    rewrite Hd, Hs. destruct (negb (excluded (fst kv))); split; reflexivity.
Qed.

(** A key that no copied upstream header equals up to case keeps the value
    it had before the loop. *)
Lemma copy_headers_untouched (items : list (string * string))
    (response : FlaskResponse) (k' : string) :
  (forall k v, In (k, v) items -> excluded k = false ->
               PyStr.lower k <> PyStr.lower k') ->
  Headers.get (resp_headers (copy_headers items response)) k'
  = Headers.get (resp_headers response) k'.
Proof.
  revert response. induction items as [|[k v] r IH]; intros response H.
  - reflexivity.
  - rewrite copy_headers_cons; simpl fst; simpl snd.
    rewrite IH by (intros k0 v0 Hin Hx0; apply (H k0 v0); [now right | assumption]).
    destruct (excluded k) eqn:Hx; simpl; [reflexivity|].
    apply HeadersFacts.get_set_other. apply (H k v); [now left | assumption].
Qed.

Lemma lower_key_not_in (k : string) (r : list (string * string)) :
  ~ In (PyStr.lower k) (map (fun kv => PyStr.lower (fst kv)) r) ->
  forall k0 v0, In (k0, v0) r -> PyStr.lower k0 <> PyStr.lower k.
Proof.
  intros Hn k0 v0 Hin Heq. apply Hn. rewrite <- Heq.
  apply (in_map (fun kv => PyStr.lower (fst kv)) r (k0, v0) Hin).
Qed.

(** An upstream header that is not excluded ends up in the response with
    its upstream value. *)
Lemma copy_headers_copied (items : list (string * string))
    (response : FlaskResponse) (k v : string) :
  case_insensitive_dict items -> In (k, v) items -> excluded k = false ->
  Headers.get (resp_headers (copy_headers items response)) k = Some v.
Proof.
  unfold case_insensitive_dict.
  revert response. induction items as [|[k0 v0] r IH]; intros response Hnd Hin Hx.
  - destruct Hin.
  - simpl in Hnd. inversion Hnd as [|x l Hnotin Hnd']; subst.
    rewrite copy_headers_cons; simpl fst; simpl snd.
    destruct Hin as [Heq | Hin].
    + inversion Heq; subst k0 v0. rewrite Hx; simpl.
      rewrite copy_headers_untouched.
      * simpl. apply HeadersFacts.get_set_same.
      * intros k1 v1 Hin1 _. now apply (lower_key_not_in k r Hnotin k1 v1).
    + now apply IH.
Qed.


(** ** The handler *)

Section HandlerFacts.

Variable json_loads : string -> exception + pyobj.
Variable json_dumps : pyobj -> exception + string.
Variable send : UpstreamCall -> result Response.
Variable exchange_url : string.

Local Abbreviation keys := (Mitm.keys json_loads json_dumps).
Local Abbreviation dispatcher := (Mitm.dispatcher json_loads json_dumps).
Local Abbreviation get_json := (Mitm.get_json json_loads).
Local Abbreviation rewritten_url := (Mitm.rewritten_url exchange_url).
Local Abbreviation target_url := (Mitm.target_url exchange_url).
Local Abbreviation upstream_call := (Mitm.upstream_call json_loads exchange_url).
Local Abbreviation all := (Mitm.all json_loads json_dumps send exchange_url).

(** The three ways [keys] can go. *)
Lemma keys_cases (resp : Response) :
  keys resp =
  match json_loads (text resp) with
  | inl _ => Ok (text resp)
  | inr v =>
      match json_dumps v with
      | inr s => Ok s
      | inl _ => Ok (text resp)
      end
  end.
Proof.
  unfold Mitm.keys, resp_json, try_except_Exception, bind, call.
  destruct (json_loads (text resp)) as [e|v]; [reflexivity|].
  destruct (json_dumps v); reflexivity.
Qed.

Lemma keys_returns (resp : Response) : exists s, keys resp = Ok s.
Proof.
  rewrite keys_cases.
  destruct (json_loads (text resp)) as [e|v]; [(eexists; reflexivity)|].
  destruct (json_dumps v); (eexists; reflexivity).
Qed.

(** Whatever the directive, the selected function returns a body. *)
Lemma dispatch_returns (key : option string) (r : Response) :
  exists body,
    dict_get dispatcher key (fun x => Ok (text x)) r = Ok body.
Proof.
  destruct key as [k|]; [|eexists; reflexivity].
  unfold dict_get, Mitm.dispatcher; cbv [find fst snd].
  destruct (String.eqb "track_transaction" k);
    [unfold track_transaction; eexists; reflexivity|].
  destruct (String.eqb "track_transfer" k);
    [unfold track_transfer; eexists; reflexivity|].
  destruct (String.eqb "keys" k); [apply keys_returns | eexists; reflexivity].
Qed.

(** An absent or unrecognised directive selects the default function. *)
Lemma dispatch_default (key : option string) (r : Response) :
  (forall d, key = Some d ->
             d <> "track_transaction" /\ d <> "track_transfer" /\ d <> "keys") ->
  dict_get dispatcher key (fun x => Ok (text x)) r = Ok (text r).
Proof.
  intros H. destruct key as [k|]; [|reflexivity].
  destruct (H k eq_refl) as (H1 & H2 & H3).
  unfold dict_get, Mitm.dispatcher; cbv [find fst snd].
  assert (String.eqb "track_transaction" k = false) as ->
      by (apply String.eqb_neq; congruence).
  assert (String.eqb "track_transfer" k = false) as ->
      by (apply String.eqb_neq; congruence).
  assert (String.eqb "keys" k = false) as ->
      by (apply String.eqb_neq; congruence).
  reflexivity.
Qed.

(** The handler once the upstream has answered. *)
Lemma all_answered (path : string) (req : Request) (c : UpstreamCall)
    (r : Response) :
  upstream_call path req = Ok c -> send c = Ok r ->
  all path req =
  (body <- dict_get dispatcher (Headers.get (req_headers req) "X-Taler-Mitm")
             (fun x => Ok (text x)) r ;;
   Ok (copy_headers (headers r) (make_response body), status_code r)).
Proof.
  intros Hc Hs. unfold Mitm.all. rewrite Hc; simpl. rewrite Hs; reflexivity.
Qed.

(** Joining the empty path (the root route) keeps the rewritten URL. *)
Lemma target_url_root (req : Request) :
  target_url "" req = rewritten_url req.
Proof.
  unfold Mitm.target_url.
  destruct (rewritten_url req) as [u|e]; simpl; [|reflexivity].
  unfold urljoin. destruct u; reflexivity.
Qed.

(** Line 58 to 62: scheme and network location come from the exchange
    URL, the other four components from the request URL. *)
Lemma rewritten_url_components (req : Request) (u x : ParseResult) :
  urlparse (url req) = inr u -> urlparse exchange_url = inr x ->
  rewritten_url req =
  Ok (urlunparse (mkParse (scheme x) (netloc x) (UrlParse.path u)
                          (params u) (query u) (fragment u))).
Proof.
  intros Hu Hx. unfold Mitm.rewritten_url. now rewrite Hu, Hx.
Qed.

(** The method of the upstream call: POST for POST, GET for the rest. *)
Lemma upstream_call_method (path : string) (req : Request) (c : UpstreamCall) :
  upstream_call path req = Ok c ->
  call_method c = if String.eqb "POST" (method req) then POST else GET.
Proof.
  unfold Mitm.upstream_call, bind.
  destruct (get_json req); [|discriminate].
  destruct (target_url path req); [|discriminate].
  destruct (String.eqb "POST" (method req)); intros H; inversion H; reflexivity.
Qed.


(** C4 (as amended).  With the directive header absent or carrying an
    unrecognised value, the outbound body is the text of the upstream body,
    which is the upstream body byte for byte when decoding leaves it as it
    is, and the outbound status is the upstream status. *)
Theorem identity_passthrough (path : string) (req : Request)
    (c : UpstreamCall) (r : Response) :
  upstream_call path req = Ok c -> send c = Ok r ->
  (forall d, Headers.get (req_headers req) "X-Taler-Mitm" = Some d ->
             d <> "track_transaction" /\ d <> "track_transfer" /\ d <> "keys") ->
  exists rv, all path req = Ok rv /\
    resp_data (finalize rv) = text r /\
    (text r = content r -> resp_data (finalize rv) = content r) /\
    resp_status (finalize rv) = status_code r.
Proof.
  intros Hc Hs Hd.
  rewrite (all_answered path req c r Hc Hs).
  rewrite (dispatch_default _ r Hd); simpl bind.
  eexists; split; [reflexivity|]. simpl.
  destruct (copy_headers_data (headers r) (make_response (text r))) as [-> _].
  repeat split. intros <-. reflexivity.
Qed.

(** C5.  Whatever transformation the directive selects, the outbound
    status is the upstream status; an upstream 4xx or 5xx is never
    answered as a 2xx. *)
Theorem status_passthrough (path : string) (req : Request)
    (c : UpstreamCall) (r : Response) :
  upstream_call path req = Ok c -> send c = Ok r ->
  exists rv, all path req = Ok rv /\
    resp_status (finalize rv) = status_code r /\
    ((400 <= status_code r < 600)%Z ->
     ~ (200 <= resp_status (finalize rv) < 300)%Z).
Proof.
  intros Hc Hs.
  rewrite (all_answered path req c r Hc Hs).
  destruct (dispatch_returns (Headers.get (req_headers req) "X-Taler-Mitm") r)
    as [body Hbody].
  rewrite Hbody; simpl bind.
  eexists; split; [reflexivity|]. simpl.
  split; [reflexivity | lia].
Qed.

(** C8.  When the call to the upstream raises, the handler raises the
    same exception and returns no response. *)
Theorem transport_failure_propagates (path : string) (req : Request)
    (c : UpstreamCall) (e : base_exception) :
  upstream_call path req = Ok c -> send c = Raise e ->
  all path req = Raise e /\ forall rv, all path req <> Ok rv.
Proof.
  intros Hc Hs.
  assert (H : all path req = Raise e).
  { unfold Mitm.all. rewrite Hc; simpl. now rewrite Hs. }
  split; [exact H|]. intros rv. rewrite H. discriminate.
Qed.

(** C9 (as amended).  A request that is not a POST, is marked as JSON by
    its content type and whose body parses to [v] leads to an upstream GET
    with [json=v]; the same request sent as a POST leads to an upstream
    POST with the same URL and the same [json=v]. *)
Theorem get_forwards_json_body (path : string) (req : Request) (v : pyobj)
    (target : string) :
  method req <> "POST" -> is_json req = true ->
  json_loads (data req) = inr v ->
  target_url path req = Ok target ->
  upstream_call path req = Ok (mkCall GET target v)
  /\ upstream_call path (with_method "POST" req) = Ok (mkCall POST target v).
Proof.
  intros Hm Hj Hv Ht.
  assert (Hb : get_json req = Ok v).
  { unfold Mitm.get_json. now rewrite Hj, Hv. }
  split.
  - unfold Mitm.upstream_call. rewrite Hb; cbn [bind]. rewrite Ht; cbn [bind].
    assert (String.eqb "POST" (method req) = false) as ->
        by (apply String.eqb_neq; congruence).
    reflexivity.
  - unfold Mitm.upstream_call.
    assert (get_json (with_method "POST" req) = Ok v) as -> by exact Hb.
    assert (target_url path (with_method "POST" req) = Ok target) as ->
        by exact Ht.
    reflexivity.
Qed.

(** C3.  [keys] returns the re-serialised JSON when the body is valid
    JSON, and the raw text when it is not; it never raises.  When the
    serialiser round-trips on the parsed value, the returned text parses
    to the same value as the body. *)
Theorem keys_reserializes_or_returns_text (resp : Response) :
  (forall v s, json_loads (text resp) = inr v -> json_dumps v = inr s ->
               keys resp = Ok s)
  /\ (forall e, json_loads (text resp) = inl e -> keys resp = Ok (text resp))
  /\ (forall v, json_loads (text resp) = inr v ->
                (forall s, json_dumps v = inr s -> json_loads s = inr v) ->
                exists s, keys resp = Ok s /\ json_loads s = inr v)
  /\ (exists s, keys resp = Ok s).
Proof.
  rewrite keys_cases. repeat split.
  - intros v s Hv Hs. now rewrite Hv, Hs.
  - intros e He. now rewrite He.
  - intros v Hv Hrt. rewrite Hv.
    destruct (json_dumps v) as [e|s] eqn:Hs.
    + exists (text resp). now split.
    + exists s. split; [reflexivity | now apply Hrt].
  - destruct (json_loads (text resp)) as [e|v]; [(eexists; reflexivity)|].
    destruct (json_dumps v); (eexists; reflexivity).
Qed.

(** C10.  [keys] is total: for every response it returns a string, and
    any exception raised by the parser or by the serialiser makes it
    return the raw text. *)
Theorem keys_total (resp : Response) :
  (exists s, keys resp = Ok s)
  /\ (forall e, resp_json json_loads resp = inl e ->
                keys resp = Ok (text resp))
  /\ (forall v e, resp_json json_loads resp = inr v -> json_dumps v = inl e ->
                  keys resp = Ok (text resp)).
Proof.
  unfold resp_json. split; [apply keys_returns|].
  rewrite keys_cases. split.
  - intros e He. now rewrite He.
  - intros v e Hv He. now rewrite Hv, He.
Qed.

End HandlerFacts.

(** [except Exception] does not catch what is not derived from
    [Exception]. *)
Lemma try_except_Exception_lets_through (A : Type) (handler : result A) :
  try_except_Exception (Raise KeyboardInterrupt) handler = Raise KeyboardInterrupt
  /\ forall code, try_except_Exception (Raise (SystemExit code)) handler
                  = Raise (SystemExit code).
Proof. split; reflexivity. Qed.

(** ** Start-up *)

(** C7 (as amended).  Only the absence of the exchange URL stops the
    start-up: without [TALER_EXCHANGE_URL] the import fails with
    [AssertionError] and no view exists, and without [--exchange] the script
    exits with status 1; any value that is present is taken as it is. *)
Theorem startup_checks_presence_only
    (json_loads : string -> exception + pyobj)
    (json_dumps : pyobj -> exception + string)
    (send : UpstreamCall -> result Response)
    (environ : list (string * string)) (args : Args) :
  (environ_get environ "TALER_EXCHANGE_URL" = None ->
     module_init environ = Raise (Exc AssertionError)
     /\ app json_loads json_dumps send environ = Raise (Exc AssertionError))
  /\ (forall u, environ_get environ "TALER_EXCHANGE_URL" = Some u ->
        module_init environ = Ok u
        /\ app json_loads json_dumps send environ
           = Ok (Mitm.all json_loads json_dumps send u))
  /\ (args_exchange_url args = None -> script_main args = Raise (SystemExit 1))
  /\ (forall u, args_exchange_url args = Some u -> script_main args = Ok tt).
Proof.
  unfold app, module_init, script_main.
  split; [|split; [|split]].
  - intros H. rewrite H. split; reflexivity.
  - intros u H. rewrite H. split; reflexivity.
  - intros H. now rewrite H.
  - intros u H. now rewrite H.
Qed.

(** ** Runs on concrete requests *)

Import MiniJson Examples.

(** C1.  For [GET http://localhost:5000/track/transfer?wtid=ABC] and the
    exchange URL [https://exchange.example], line 62 yields
    [https://exchange.example/track/transfer?wtid=ABC], but the URL the
    request is forwarded to is [urljoin] of that URL and the path:
    [https://exchange.example/track/track/transfer]. *)
Theorem forwarded_url_track_transfer :
  rewritten_url "https://exchange.example" req_track_transfer
  = Ok "https://exchange.example/track/transfer?wtid=ABC"
  /\ target_url "https://exchange.example" "track/transfer" req_track_transfer
     = Ok "https://exchange.example/track/track/transfer".
Proof. split; vm_compute; reflexivity. Qed.

(** C6.  A POST of [{"x":5}] to [/track/transaction] with the exchange URL
    [http://up:9000] leads to an upstream POST with the same JSON value, but
    to [http://up:9000/track/track/transaction]. *)
Theorem upstream_call_post_track_transaction :
  upstream_call loads "http://up:9000" "track/transaction"
                req_post_track_transaction
  = Ok (mkCall POST "http://up:9000/track/track/transaction"
               (PyDict [("x", PyInt 5)]))
  /\ urljoin "http://up:9000" "track/transaction"
     = inr "http://up:9000/track/transaction".
Proof. split; vm_compute; reflexivity. Qed.


(** C4, counterexample.  The upstream body is the four bytes of an
    ISO-8859-1 text; with an unrecognised directive the outbound body is the
    five bytes of the same text in UTF-8. *)
Lemma latin1_body_reencoded :
  Headers.get (req_headers req_bogus) "X-Taler-Mitm" = Some "bogus"
  /\ text resp_latin1 = latin1_decode (content resp_latin1)
  /\ exists rv,
       Mitm.all loads dumps (answers resp_latin1) "http://up:9000" "keys" req_bogus
       = Ok rv
       /\ String.length (content resp_latin1) = 4
       /\ String.length (resp_data (finalize rv)) = 5
       /\ resp_data (finalize rv) <> content resp_latin1.
Proof.
  split; [reflexivity|]. split; [reflexivity|].
  eexists. split; [vm_compute; reflexivity|].
  split; [reflexivity|]. split; [reflexivity|].
  vm_compute. discriminate.
Qed.

(** C7, counterexample.  With [TALER_EXCHANGE_URL] set to a string that is
    not an absolute URL the import succeeds and the view exists. *)
Lemma malformed_url_starts :
  is_absolute_url "not a url" = false
  /\ module_init [("TALER_EXCHANGE_URL", "not a url")] = Ok "not a url"
  /\ app loads dumps refuses [("TALER_EXCHANGE_URL", "not a url")]
     = Ok (Mitm.all loads dumps refuses "not a url")
  /\ script_main (mkArgs (Some "not a url") 5000) = Ok tt.
Proof. repeat split. Qed.

(** C9, counterexample.  A GET whose body [{"x":5}] parses as JSON but is
    sent as [text/plain] is forwarded with [json=None], that is without a
    body. *)
Lemma get_text_plain_body_dropped :
  method req_get_text_plain = "GET"
  /\ loads (data req_get_text_plain) = inr (PyDict [("x", PyInt 5)])
  /\ upstream_call loads "http://up:9000" "keys" req_get_text_plain
     = Ok (mkCall GET "http://up:9000/keys" PyNone)
  /\ prepared_body dumps (mkCall GET "http://up:9000/keys" PyNone) = Ok None.
Proof. repeat split; vm_compute; reflexivity. Qed.

(** ** Instances of the theorems *)


Lemma identity_passthrough_witness :
  exists rv,
    Mitm.all loads dumps (answers resp_404) "http://up:9000" "keys" req_bogus = Ok rv
    /\ resp_data (finalize rv) = "not found"
    /\ (text resp_404 = content resp_404 -> resp_data (finalize rv) = "not found")
    /\ resp_status (finalize rv) = 404%Z.
Proof.
  apply (identity_passthrough loads dumps (answers resp_404) "http://up:9000"
           "keys" req_bogus (mkCall GET "http://up:9000/keys" PyNone) resp_404).
  - vm_compute; reflexivity.
  - reflexivity.
  - intros d H. vm_compute in H. inversion H. repeat split; discriminate.
Defined.

Lemma status_passthrough_witness :
  exists rv,
    Mitm.all loads dumps (answers resp_404) "http://up:9000" "keys" req_keys = Ok rv
    /\ resp_status (finalize rv) = 404%Z
    /\ ((400 <= 404 < 600)%Z -> ~ (200 <= resp_status (finalize rv) < 300)%Z).
Proof.
  apply (status_passthrough loads dumps (answers resp_404) "http://up:9000"
           "keys" req_keys (mkCall GET "http://up:9000/keys" PyNone) resp_404).
  - vm_compute; reflexivity.
  - reflexivity.
Defined.

Lemma transport_failure_propagates_witness :
  Mitm.all loads dumps refuses "http://up:9000" "keys" req_bogus
  = Raise (Exc ConnectionError)
  /\ forall rv,
       Mitm.all loads dumps refuses "http://up:9000" "keys" req_bogus <> Ok rv.
Proof.
  apply (transport_failure_propagates loads dumps refuses "http://up:9000"
           "keys" req_bogus (mkCall GET "http://up:9000/keys" PyNone)
           (Exc ConnectionError)).
  - vm_compute; reflexivity.
  - reflexivity.
Defined.

Lemma get_forwards_json_body_witness :
  upstream_call loads "http://up:9000" "keys" req_get_json_body
  = Ok (mkCall GET "http://up:9000/keys" (PyDict [("x", PyInt 5)]))
  /\ upstream_call loads "http://up:9000" "keys"
                   (with_method "POST" req_get_json_body)
     = Ok (mkCall POST "http://up:9000/keys" (PyDict [("x", PyInt 5)])).
Proof.
  apply (get_forwards_json_body loads "http://up:9000" "keys" req_get_json_body
           (PyDict [("x", PyInt 5)]) "http://up:9000/keys").
  - simpl; discriminate.
  - reflexivity.
  - vm_compute; reflexivity.
  - vm_compute; reflexivity.
Defined.

Lemma keys_reserializes_or_returns_text_witness :
  Mitm.keys loads dumps resp_a1 = Ok json_a1_dumped
  /\ Mitm.keys loads dumps resp_not_json = Ok "not json"
  /\ exists s, Mitm.keys loads dumps resp_a1 = Ok s
               /\ loads s = inr (PyDict [("a", PyInt 1)]).
Proof.
  split; [|split].
  - apply (proj1 (keys_reserializes_or_returns_text loads dumps resp_a1)
             (PyDict [("a", PyInt 1)]) json_a1_dumped);
      vm_compute; reflexivity.
  - apply (proj1 (proj2 (keys_reserializes_or_returns_text loads dumps
                           resp_not_json)) JSONDecodeError).
    vm_compute; reflexivity.
  - apply (proj1 (proj2 (proj2 (keys_reserializes_or_returns_text loads dumps
                                  resp_a1)))).
    + vm_compute; reflexivity.
    + intros s H. vm_compute in H. inversion H. vm_compute; reflexivity.
Defined.

Lemma keys_total_witness :
  (exists s, Mitm.keys loads dumps resp_not_json = Ok s)
  /\ Mitm.keys loads dumps resp_not_json = Ok "not json".
Proof.
  split.
  - apply (proj1 (keys_total loads dumps resp_not_json)).
  - apply (proj1 (proj2 (keys_total loads dumps resp_not_json)) JSONDecodeError).
    vm_compute; reflexivity.
Defined.

Lemma startup_checks_presence_only_witness :
  module_init [("HOME", "/root")] = Raise (Exc AssertionError)
  /\ module_init [("TALER_EXCHANGE_URL", "https://exchange.example:8443")]
     = Ok "https://exchange.example:8443"
  /\ script_main (mkArgs None 5000) = Raise (SystemExit 1).
Proof.
  split; [|split].
  - apply (proj1 (startup_checks_presence_only loads dumps refuses
                    [("HOME", "/root")] (mkArgs None 5000))).
    reflexivity.
  - apply (proj1 (proj2 (startup_checks_presence_only loads dumps refuses
                    [("TALER_EXCHANGE_URL", "https://exchange.example:8443")]
                    (mkArgs None 5000)))
             "https://exchange.example:8443").
    reflexivity.
  - apply (proj1 (proj2 (proj2 (startup_checks_presence_only loads dumps refuses
                    [] (mkArgs None 5000))))).
    reflexivity.
Defined.

(** * Further properties of the handler *)

(** ** More on the header list *)

Module HeadersMore.
Import Headers.

(** [headers.get] does not depend on the case of the key. *)
Lemma get_case (l : t) (k k' : string) :
  PyStr.lower k = PyStr.lower k' -> get l k = get l k'.
Proof. intros H. unfold get. now rewrite H. Qed.

Lemma get_none_iff (l : t) (k : string) :
  get l k = None <-> forall kv, In kv l -> lower_key kv <> PyStr.lower k.
Proof.
  unfold get, lower_key. split.
  - intros H kv Hin Heq.
    destruct (find (key_is (PyStr.lower k)) l) eqn:Hf; [discriminate|].
    apply (find_none _ _ Hf) in Hin. unfold key_is in Hin.
    apply String.eqb_neq in Hin. contradiction.
  - intros H. destruct (find (key_is (PyStr.lower k)) l) eqn:Hf; [|reflexivity].
    apply find_some in Hf. destruct Hf as [Hin Hk].
    unfold key_is in Hk. apply String.eqb_eq in Hk.
    now destruct (H _ Hin).
Qed.

(** What [headers[key] = value] leaves in the list: the new pair and
    pairs that were there. *)
Lemma set_loop_in (l : t) (k v : string) (x : string * string) :
  In x (set_loop l k v) -> x = (k, v) \/ In x l.
Proof.
  induction l as [|kv r IH]; simpl.
  - intros [H|[]]; now left.
  - destruct (key_is (PyStr.lower k) kv).
    + intros [H|H]; [now left|]. apply filter_In in H. right; right; tauto.
    + intros [H|H]; [right; now left|].
      destruct (IH H); [now left | right; now right].
Qed.

Lemma nodup_map_filter (f : string * string -> bool) (l : t) :
  NoDup (map lower_key l) -> NoDup (map lower_key (filter f l)).
Proof.
  induction l as [|kv r IH]; simpl; intros H; [constructor|].
  inversion H as [|x l' Hnotin Hnd]; subst.
  destruct (f kv); simpl; [|now apply IH].
  constructor; [|now apply IH].
  intros Hin. apply Hnotin. apply in_map_iff in Hin.
  destruct Hin as [y [Hy Hin]]. apply filter_In in Hin.
  apply in_map_iff. exists y. tauto.
Qed.

(** [headers[key] = value] keeps the keys unique up to case. *)
Lemma set_loop_nodup (l : t) (k v : string) :
  NoDup (map lower_key l) -> NoDup (map lower_key (set_loop l k v)).
Proof.
  induction l as [|kv r IH]; simpl; intros H.
  - constructor; [intros [] | constructor].
  - inversion H as [|x l' Hnotin Hnd]; subst.
    destruct (key_is (PyStr.lower k) kv) eqn:Hk; simpl.
    + constructor; [|now apply nodup_map_filter].
      intros Hin. apply in_map_iff in Hin. destruct Hin as [y [Hy Hin]].
      apply filter_In in Hin. destruct Hin as [_ Hf].
      unfold key_is in Hf. unfold lower_key in Hy; simpl in Hy.
      rewrite Hy, String.eqb_refl in Hf. discriminate.
    + constructor; [|now apply IH].
      intros Hin. apply in_map_iff in Hin. destruct Hin as [y [Hy Hin]].
      destruct (set_loop_in r k v y Hin) as [-> | Hin'].
      * unfold key_is in Hk. unfold lower_key in Hy; simpl in Hy.
        rewrite Hy, String.eqb_refl in Hk. discriminate.
      * apply Hnotin. apply in_map_iff. now exists y.
Qed.

End HeadersMore.

(** The headers [make_response] starts from. *)
Lemma make_response_headers (body : string) :
  resp_headers (make_response body)
  = [("Content-Type", "text/html; charset=utf-8");
     ("Content-Length", PyStr.of_nat (String.length body))].
Proof. reflexivity. Qed.

(** The loop keeps the keys of the response unique up to case. *)
Lemma copy_headers_nodup (items : list (string * string)) (response : FlaskResponse) :
  NoDup (map lower_key (resp_headers response)) ->
  NoDup (map lower_key (resp_headers (copy_headers items response))).
Proof.
  revert response. induction items as [|kv r IH]; intros response H; [exact H|].
  rewrite copy_headers_cons. apply IH.
  destruct (negb (excluded (fst kv))); [|exact H].
  simpl. now apply HeadersMore.set_loop_nodup.
Qed.

(** Every header of the response after the loop was there before it or is
    an upstream header that is not excluded. *)
Lemma copy_headers_in (items : list (string * string)) (response : FlaskResponse)
    (x : string * string) :
  In x (resp_headers (copy_headers items response)) ->
  In x (resp_headers response) \/ (In x items /\ excluded (fst x) = false).
Proof.
  revert response. induction items as [|kv r IH]; intros response H;
    [now left|].
  rewrite copy_headers_cons in H. apply IH in H.
  destruct H as [H | [H Hx]]; [|right; split; [now right | exact Hx]].
  destruct (excluded (fst kv)) eqn:Hk; simpl in H; [now left|].
  destruct (HeadersMore.set_loop_in _ _ _ _ H) as [-> | H'].
  - right. split; [left; now destruct kv | exact Hk].
  - now left.
Qed.

Lemma excluded_spelling (k : string) :
  excluded k = false <-> k <> "Server" /\ k <> "Content-Length".
Proof.
  unfold excluded, PyStr.mem; simpl. split.
  - intros H. apply orb_false_iff in H. destruct H as [H1 H2].
    apply orb_false_iff in H2. destruct H2 as [H2 _].
    apply String.eqb_neq in H1, H2. tauto.
  - intros [H1 H2]. now apply excluded_false.
Qed.

(** ** The response the handler builds *)

Section HandlerMore.

Variable json_loads : string -> exception + pyobj.
Variable json_dumps : pyobj -> exception + string.
Variable send : UpstreamCall -> result Response.
Variable exchange_url : string.

Local Abbreviation keys := (Mitm.keys json_loads json_dumps).
Local Abbreviation dispatcher := (Mitm.dispatcher json_loads json_dumps).
Local Abbreviation get_json := (Mitm.get_json json_loads).
Local Abbreviation rewritten_url := (Mitm.rewritten_url exchange_url).
Local Abbreviation target_url := (Mitm.target_url exchange_url).
Local Abbreviation upstream_call := (Mitm.upstream_call json_loads exchange_url).
Local Abbreviation all := (Mitm.all json_loads json_dumps send exchange_url).

(** Once the upstream has answered, the handler returns the response made
    from the transformed body, with the upstream headers copied in. *)
Lemma all_returns (path : string) (req : Request) (c : UpstreamCall)
    (r : Response) :
  upstream_call path req = Ok c -> send c = Ok r ->
  exists body,
    dict_get dispatcher (Headers.get (req_headers req) "X-Taler-Mitm")
             (fun x => Ok (text x)) r = Ok body
    /\ all path req
       = Ok (copy_headers (headers r) (make_response body), status_code r).
Proof.
  intros Hc Hs.
  destruct (dispatch_returns json_loads json_dumps
              (Headers.get (req_headers req) "X-Taler-Mitm") r) as [body Hb].
  exists body. split; [exact Hb|].
  rewrite (all_answered json_loads json_dumps send exchange_url path req c r Hc Hs).
  now rewrite Hb.
Qed.

(** X1.  Every directive other than [keys], recognised or not, gives the
    upstream text as the outbound body. *)
Theorem directive_other_than_keys_is_identity (path : string) (req : Request)
    (c : UpstreamCall) (r : Response) :
  upstream_call path req = Ok c -> send c = Ok r ->
  Headers.get (req_headers req) "X-Taler-Mitm" <> Some "keys" ->
  exists rv, all path req = Ok rv /\ resp_data (finalize rv) = text r.
Proof.
  intros Hc Hs Hd.
  destruct (all_returns path req c r Hc Hs) as [body [Hb Hall]].
  rewrite Hall. eexists; split; [reflexivity|]. simpl.
  destruct (copy_headers_data (headers r) (make_response body)) as [-> _]; simpl.
  destruct (Headers.get (req_headers req) "X-Taler-Mitm") as [k|];
    [|simpl in Hb; congruence].
  unfold dict_get, Mitm.dispatcher in Hb; cbv [find fst snd] in Hb.
  destruct (String.eqb "track_transaction" k);
    [unfold track_transaction in Hb; congruence|].
  destruct (String.eqb "track_transfer" k);
    [unfold track_transfer in Hb; congruence|].
  destruct (String.eqb "keys" k) eqn:Hk; [|congruence].
  apply String.eqb_eq in Hk. subst k. now destruct Hd.
Qed.

(** X2.  With the directive [keys] the outbound body is what [keys]
    returns for the upstream response: the re-serialised JSON when the
    upstream body parses and serialises, the upstream text when parsing
    fails. *)
Theorem keys_directive_body (path : string) (req : Request)
    (c : UpstreamCall) (r : Response) :
  upstream_call path req = Ok c -> send c = Ok r ->
  Headers.get (req_headers req) "X-Taler-Mitm" = Some "keys" ->
  exists rv, all path req = Ok rv
    /\ keys r = Ok (resp_data (finalize rv))
    /\ (forall v s, json_loads (text r) = inr v -> json_dumps v = inr s ->
                    resp_data (finalize rv) = s)
    /\ (forall e, json_loads (text r) = inl e ->
                  resp_data (finalize rv) = text r).
Proof.
  intros Hc Hs Hd.
  destruct (all_returns path req c r Hc Hs) as [body [Hb Hall]].
  rewrite Hall. eexists; split; [reflexivity|]. simpl.
  destruct (copy_headers_data (headers r) (make_response body)) as [-> _]; simpl.
  rewrite Hd in Hb. change (keys r = Ok body) in Hb.
  split; [exact Hb|].
  rewrite keys_cases in Hb. split.
  - intros v s Hv Hsd. rewrite Hv, Hsd in Hb. congruence.
  - intros e He. rewrite He in Hb. congruence.
Qed.

(** X3.  The exclusion of line 76 goes by exact spelling: an upstream
    header whose name is not spelled [Server] or [Content-Length] is copied,
    and is then what the response holds under every spelling of that
    name. *)
Theorem upstream_header_copied_up_to_case (path : string) (req : Request)
    (c : UpstreamCall) (r : Response) (k v name : string) :
  upstream_call path req = Ok c -> send c = Ok r ->
  case_insensitive_dict (headers r) ->
  In (k, v) (headers r) -> k <> "Server" -> k <> "Content-Length" ->
  PyStr.lower name = PyStr.lower k ->
  exists rv, all path req = Ok rv
    /\ Headers.get (resp_headers (finalize rv)) name = Some v.
Proof.
  intros Hc Hs Hcid Hin H1 H2 Hname.
  destruct (all_returns path req c r Hc Hs) as [body [Hb Hall]].
  rewrite Hall. eexists; split; [reflexivity|]. simpl.
  rewrite (HeadersMore.get_case _ name k Hname).
  apply copy_headers_copied; [assumption | assumption |].
  now apply excluded_false.
Qed.

(** X4.  When no copied upstream header is a [Content-Length] under
    another spelling, the [Content-Length] of the response is the length of
    the outbound body, whatever the directive. *)
Theorem content_length_matches_body (path : string) (req : Request)
    (c : UpstreamCall) (r : Response) :
  upstream_call path req = Ok c -> send c = Ok r ->
  (forall k v, In (k, v) (headers r) ->
               k <> "Server" -> k <> "Content-Length" ->
               PyStr.lower k <> "content-length") ->
  exists rv, all path req = Ok rv
    /\ Headers.get (resp_headers (finalize rv)) "Content-Length"
       = Some (PyStr.of_nat (String.length (resp_data (finalize rv)))).
Proof.
  intros Hc Hs Hno.
  destruct (all_returns path req c r Hc Hs) as [body [Hb Hall]].
  rewrite Hall. eexists; split; [reflexivity|]. simpl.
  rewrite copy_headers_untouched.
  - destruct (copy_headers_data (headers r) (make_response body)) as [-> _].
    reflexivity.
  - intros k v Hin Hx. apply excluded_spelling in Hx. destruct Hx.
    now apply (Hno k v).
Qed.

(** X5.  When the upstream sends no content type, the response keeps the
    content type [make_response] gave it. *)
Theorem content_type_default (path : string) (req : Request)
    (c : UpstreamCall) (r : Response) :
  upstream_call path req = Ok c -> send c = Ok r ->
  (forall k v, In (k, v) (headers r) -> PyStr.lower k <> "content-type") ->
  exists rv, all path req = Ok rv
    /\ Headers.get (resp_headers (finalize rv)) "Content-Type"
       = Some "text/html; charset=utf-8".
Proof.
  intros Hc Hs Hno.
  destruct (all_returns path req c r Hc Hs) as [body [Hb Hall]].
  rewrite Hall. eexists; split; [reflexivity|]. simpl.
  rewrite copy_headers_untouched; [reflexivity|].
  intros k v Hin _. now apply (Hno k v).
Qed.

(** X6.  The header names of the response are unique up to case, whatever
    the upstream sent. *)
Theorem outbound_headers_unique (path : string) (req : Request)
    (c : UpstreamCall) (r : Response) :
  upstream_call path req = Ok c -> send c = Ok r ->
  exists rv, all path req = Ok rv
    /\ NoDup (map lower_key (resp_headers (finalize rv))).
Proof.
  intros Hc Hs.
  destruct (all_returns path req c r Hc Hs) as [body [Hb Hall]].
  rewrite Hall. eexists; split; [reflexivity|]. simpl.
  apply copy_headers_nodup. rewrite make_response_headers.
  repeat constructor; simpl; intuition discriminate.
Qed.

(** X7.  The response holds nothing but the two headers of
    [make_response] and upstream headers not spelled [Server] or
    [Content-Length]; no header of it is spelled [Server]. *)
Theorem outbound_headers_provenance (path : string) (req : Request)
    (c : UpstreamCall) (r : Response) :
  upstream_call path req = Ok c -> send c = Ok r ->
  exists rv, all path req = Ok rv
    /\ (forall k v, In (k, v) (resp_headers (finalize rv)) ->
          (k = "Content-Type" /\ v = "text/html; charset=utf-8")
          \/ (k = "Content-Length"
              /\ v = PyStr.of_nat (String.length (resp_data (finalize rv))))
          \/ (In (k, v) (headers r) /\ k <> "Server" /\ k <> "Content-Length"))
    /\ (forall v, ~ In ("Server", v) (resp_headers (finalize rv))).
Proof.
  intros Hc Hs.
  destruct (all_returns path req c r Hc Hs) as [body [Hb Hall]].
  rewrite Hall. eexists; split; [reflexivity|]. simpl.
  destruct (copy_headers_data (headers r) (make_response body)) as [Hdata _].
  assert (Hprov : forall k v,
            In (k, v) (resp_headers (copy_headers (headers r) (make_response body))) ->
            (k = "Content-Type" /\ v = "text/html; charset=utf-8")
            \/ (k = "Content-Length" /\ v = PyStr.of_nat (String.length body))
            \/ (In (k, v) (headers r) /\ k <> "Server" /\ k <> "Content-Length")).
  { intros k v Hin. apply copy_headers_in in Hin.
    destruct Hin as [Hin | [Hin Hx]].
    - rewrite make_response_headers in Hin.
      destruct Hin as [Hin | [Hin | []]]; inversion Hin; subst; tauto.
    - right; right. split; [exact Hin|]. now apply excluded_spelling. }
  split.
  - intros k v Hin. rewrite Hdata. simpl. now apply Hprov.
  - intros v Hin. apply Hprov in Hin.
    destruct Hin as [[H _] | [[H _] | [_ [H _]]]]; [discriminate | discriminate |].
    now apply H.
Qed.

End HandlerMore.

(** ** Joining the rewritten URL with the path *)

Module JoinFacts.
Import PyStr.




















End JoinFacts.

(** ** The call to the upstream *)

Section RequestMore.

Variable json_loads : string -> exception + pyobj.
Variable json_dumps : pyobj -> exception + string.
Variable send : UpstreamCall -> result Response.
Variable exchange_url : string.

Local Abbreviation get_json := (Mitm.get_json json_loads).
Local Abbreviation rewritten_url := (Mitm.rewritten_url exchange_url).
Local Abbreviation target_url := (Mitm.target_url exchange_url).
Local Abbreviation upstream_call := (Mitm.upstream_call json_loads exchange_url).
Local Abbreviation all := (Mitm.all json_loads json_dumps send exchange_url).

(** X8.  A request marked as JSON whose body the parser rejects with a
    [ValueError] fails with [BadRequest] before any call to the upstream:
    the outcome is the same on every network. *)
Theorem malformed_json_body_is_bad_request (path : string) (req : Request)
    (e : exception) :
  is_json req = true -> json_loads (data req) = inl e ->
  is_ValueError e = true ->
  upstream_call path req = Raise (Exc BadRequest)
  /\ all path req = Raise (Exc BadRequest).
Proof.
  intros Hj He Hv.
  assert (H : upstream_call path req = Raise (Exc BadRequest)).
  { unfold Mitm.upstream_call, Mitm.get_json. now rewrite Hj, He, Hv. }
  split; [exact H|]. unfold Mitm.all. now rewrite H.
Qed.

(** X9.  An exchange URL that [urlparse] rejects passes the check at
    import, and then makes every request fail with the [ValueError] of
    [urlparse], before any call to the upstream. *)
Theorem unparsable_exchange_url_fails_request (path : string) (req : Request)
    (body : pyobj) (u : ParseResult) (e : exception) :
  get_json req = Ok body -> urlparse (url req) = inr u ->
  urlparse exchange_url = inl e ->
  module_init [("TALER_EXCHANGE_URL", exchange_url)] = Ok exchange_url
  /\ all path req = Raise (Exc e).
Proof.
  intros Hb Hu Hx. split; [reflexivity|].
  unfold Mitm.all, Mitm.upstream_call, Mitm.target_url, Mitm.rewritten_url.
  rewrite Hb; cbn [bind]. rewrite Hu; cbn [bind call]. now rewrite Hx.
Qed.

(** X10.  On the root route, which takes no POST and calls the view with
    the empty path, the request is forwarded as a GET to the URL of line
    62: scheme and network location of the exchange URL, and path,
    parameters, query and fragment of the request URL. *)
Theorem root_route_forwards_rewritten_url (req : Request) (body : pyobj)
    (u x : ParseResult) :
  method req <> "POST" ->
  get_json req = Ok body -> urlparse (url req) = inr u ->
  urlparse exchange_url = inr x ->
  upstream_call "" req
  = Ok (mkCall GET
               (urlunparse (mkParse (scheme x) (netloc x) (UrlParse.path u)
                                    (params u) (query u) (fragment u)))
               body).
Proof.
  intros Hm Hb Hu Hx. unfold Mitm.upstream_call.
  rewrite Hb; cbn [bind]. rewrite target_url_root.
  rewrite (rewritten_url_components exchange_url req u x Hu Hx); cbn [bind].
  assert (String.eqb "POST" (method req) = false) as ->
      by (apply String.eqb_neq; congruence).
  reflexivity.
Qed.



(** The parts of the upstream call: its JSON value is what
    [get_json] returned, its URL is the joined URL, and it is a POST exactly
    when the method of the request is spelled [POST]. *)
Theorem upstream_call_parts (path : string) (req : Request) (c : UpstreamCall) :
  upstream_call path req = Ok c ->
  get_json req = Ok (call_json c)
  /\ target_url path req = Ok (call_url c)
  /\ (call_method c = POST <-> method req = "POST")
  /\ (call_method c = GET <-> method req <> "POST").
Proof.
  unfold Mitm.upstream_call, bind.
  destruct (get_json req) as [body|]; [|discriminate].
  destruct (target_url path req) as [target|]; [|discriminate].
  destruct (String.eqb "POST" (method req)) eqn:Hm; intros H; inversion H; simpl.
  - apply String.eqb_eq in Hm. repeat split; congruence.
  - apply String.eqb_neq in Hm. repeat split; congruence.
Qed.

(** X13.  The body of a request that is not marked as JSON is not
    forwarded, whatever the method: the upstream call is made with
    [json=None], for which no body is sent. *)
Theorem untyped_body_not_forwarded (path : string) (req : Request)
    (c : UpstreamCall) :
  is_json req = false -> upstream_call path req = Ok c ->
  call_json c = PyNone /\ prepared_body json_dumps c = Ok None.
Proof.
  intros Hj Hc.
  unfold Mitm.upstream_call, Mitm.get_json in Hc.
  rewrite Hj in Hc. cbn [negb bind] in Hc.
  destruct (target_url path req) as [target|]; [|discriminate].
  cbn [bind] in Hc.
  destruct (String.eqb "POST" (method req)); inversion Hc; split; reflexivity.
Qed.

End RequestMore.

(** ** The first version of the proxy *)

Section V1Facts.

Variable json_loads : string -> exception + pyobj.
Variable send : UpstreamCall -> result Response.
Variable exchange_url : string.
Variable jsonify : pyobj -> result FlaskResponse.

Local Abbreviation upstream_call := (Mitm.upstream_call json_loads exchange_url).
Local Abbreviation all_v1 := (MitmV1.all json_loads send exchange_url jsonify).

(** Both functions of the dispatcher and the default are the identity. *)
Lemma v1_dispatch_identity (key : option string) (v : pyobj) :
  dict_get MitmV1.dispatcher key (fun x => x) v = v.
Proof.
  destruct key as [k|]; [|reflexivity].
  unfold dict_get, MitmV1.dispatcher; cbv [find fst snd].
  destruct (String.eqb "track_transaction" k); [reflexivity|].
  destruct (String.eqb "track_transfer" k); reflexivity.
Qed.

Lemma v1_all_answered (path : string) (req : Request) (c : UpstreamCall)
    (r : Response) :
  upstream_call path req = Ok c -> send c = Ok r ->
  all_v1 path req
  = MitmV1.obind (MitmV1.parsed_body json_loads r) (fun resp =>
    MitmV1.obind (MitmV1.of_result (jsonify resp)) (fun response =>
    MitmV1.Returned (response, status_code r))).
Proof.
  intros Hc Hs. unfold MitmV1.all. rewrite Hc; simpl. rewrite Hs; simpl.
  destruct (MitmV1.parsed_body json_loads r); simpl; try reflexivity.
  now rewrite v1_dispatch_identity.
Qed.

(** X14.  In the first version an upstream answer without a content type
    makes the view fail with [KeyError], whatever its status and body. *)
Theorem v1_missing_content_type (path : string) (req : Request)
    (c : UpstreamCall) (r : Response) :
  upstream_call path req = Ok c -> send c = Ok r ->
  (forall k v, In (k, v) (headers r) -> PyStr.lower k <> "content-type") ->
  all_v1 path req = MitmV1.KeyError "content-type".
Proof.
  intros Hc Hs Hno. rewrite (v1_all_answered path req c r Hc Hs).
  unfold MitmV1.parsed_body, MitmV1.cid_getitem.
  destruct (find (fun kv => String.eqb (PyStr.lower (fst kv))
                              (PyStr.lower "Content-Type")) (headers r))
    as [[k v]|] eqn:Hf; [|reflexivity].
  apply find_some in Hf. destruct Hf as [Hin Hk]. simpl in Hk.
  apply String.eqb_eq in Hk. now destruct (Hno k v Hin).
Qed.

(** X15.  In the first version an upstream answer whose content type is
    not exactly [application/json] is answered with [jsonify] of an empty
    dictionary: the upstream body is not passed on. *)
Theorem v1_other_content_type_gives_empty_object (path : string) (req : Request)
    (c : UpstreamCall) (r : Response) (ct : string) (response : FlaskResponse) :
  upstream_call path req = Ok c -> send c = Ok r ->
  MitmV1.cid_getitem (headers r) "Content-Type" = MitmV1.Returned ct ->
  ct <> "application/json" ->
  jsonify (PyDict []) = Ok response ->
  all_v1 path req = MitmV1.Returned (response, status_code r).
Proof.
  intros Hc Hs Hct Hne Hj. rewrite (v1_all_answered path req c r Hc Hs).
  unfold MitmV1.parsed_body. rewrite Hct; cbn [MitmV1.obind].
  assert (String.eqb "application/json" ct = false) as ->
      by (apply String.eqb_neq; congruence).
  simpl. now rewrite Hj.
Qed.

(** X16.  In the first version the directive changes nothing: for a JSON
    answer the view returns [jsonify] of the parsed body with the upstream
    status, and a body that does not parse makes the view fail with the
    exception of the parser. *)
Theorem v1_directive_is_ignored (path : string) (req : Request)
    (c : UpstreamCall) (r : Response) :
  upstream_call path req = Ok c -> send c = Ok r ->
  MitmV1.cid_getitem (headers r) "Content-Type"
  = MitmV1.Returned "application/json" ->
  (forall v response, json_loads (text r) = inr v -> jsonify v = Ok response ->
                      all_v1 path req = MitmV1.Returned (response, status_code r))
  /\ (forall e, json_loads (text r) = inl e ->
                all_v1 path req = MitmV1.Raised (Exc e)).
Proof.
  intros Hc Hs Hct. rewrite (v1_all_answered path req c r Hc Hs).
  unfold MitmV1.parsed_body, Mitm.resp_json. rewrite Hct; simpl. split.
  - intros v response Hv Hj. rewrite Hv; simpl. now rewrite Hj.
  - intros e He. now rewrite He.
Qed.

(** X17.  Whenever the first version answers, the status it returns is
    the status of an upstream answer to the call it made. *)
Theorem v1_status_passthrough (path : string) (req : Request)
    (rv : FlaskResponse * Z) :
  all_v1 path req = MitmV1.Returned rv ->
  exists c r, upstream_call path req = Ok c /\ send c = Ok r
              /\ resp_status (finalize rv) = status_code r.
Proof.
  unfold MitmV1.all. intros H.
  destruct (upstream_call path req) as [c|] eqn:Hc; [|discriminate].
  simpl in H. destruct (send c) as [r|] eqn:Hs; [|discriminate].
  simpl in H. exists c, r. split; [reflexivity|]. split; [exact Hs|].
  destruct (MitmV1.parsed_body json_loads r); simpl in H; try discriminate.
  destruct (jsonify _); simpl in H; [|discriminate].
  inversion H. reflexivity.
Qed.

End V1Facts.

(** ** Instances of the further properties *)

Import ExamplesV1.

Lemma directive_other_than_keys_is_identity_witness :
  exists rv,
    Mitm.all loads dumps (answers resp_a1) "http://up:9000" "keys"
             req_track_directive = Ok rv
    /\ resp_data (finalize rv) = json_a1.
Proof.
  apply (directive_other_than_keys_is_identity loads dumps (answers resp_a1)
           "http://up:9000" "keys" req_track_directive
           (mkCall GET "http://up:9000/keys" PyNone) resp_a1).
  - vm_compute; reflexivity.
  - reflexivity.
  - vm_compute; discriminate.
Defined.

Lemma keys_directive_body_witness :
  exists rv,
    Mitm.all loads dumps (answers resp_a1) "http://up:9000" "keys" req_keys = Ok rv
    /\ Mitm.keys loads dumps resp_a1 = Ok (resp_data (finalize rv))
    /\ (forall v s, loads (text resp_a1) = inr v -> dumps v = inr s ->
                    resp_data (finalize rv) = s)
    /\ (forall e, loads (text resp_a1) = inl e ->
                  resp_data (finalize rv) = text resp_a1).
Proof.
  apply (keys_directive_body loads dumps (answers resp_a1) "http://up:9000"
           "keys" req_keys (mkCall GET "http://up:9000/keys" PyNone) resp_a1).
  - vm_compute; reflexivity.
  - reflexivity.
  - vm_compute; reflexivity.
Defined.

Lemma upstream_header_copied_up_to_case_witness :
  exists rv,
    Mitm.all loads dumps (answers resp_lowercase) "http://up:9000" "keys" req_keys
    = Ok rv
    /\ Headers.get (resp_headers (finalize rv)) "Content-Length" = Some "7".
Proof.
  apply (upstream_header_copied_up_to_case loads dumps (answers resp_lowercase)
           "http://up:9000" "keys" req_keys
           (mkCall GET "http://up:9000/keys" PyNone) resp_lowercase
           "content-length" "7" "Content-Length").
  - vm_compute; reflexivity.
  - reflexivity.
  - unfold case_insensitive_dict. vm_compute.
    repeat constructor; simpl; intuition discriminate.
  - simpl; auto.
  - discriminate.
  - discriminate.
  - vm_compute; reflexivity.
Defined.

Lemma content_length_matches_body_witness :
  exists rv,
    Mitm.all loads dumps (answers resp_a1) "http://up:9000" "keys" req_keys = Ok rv
    /\ Headers.get (resp_headers (finalize rv)) "Content-Length"
       = Some (PyStr.of_nat (String.length (resp_data (finalize rv)))).
Proof.
  apply (content_length_matches_body loads dumps (answers resp_a1)
           "http://up:9000" "keys" req_keys
           (mkCall GET "http://up:9000/keys" PyNone) resp_a1).
  - vm_compute; reflexivity.
  - reflexivity.
  - intros k v Hin H1 H2. simpl in Hin.
    destruct Hin as [Hin | [Hin | [Hin | [Hin | []]]]];
      inversion Hin; subst; try congruence; vm_compute; discriminate.
Defined.

Lemma content_type_default_witness :
  exists rv,
    Mitm.all loads dumps (answers resp_untyped) "http://up:9000" "keys" req_keys
    = Ok rv
    /\ Headers.get (resp_headers (finalize rv)) "Content-Type"
       = Some "text/html; charset=utf-8".
Proof.
  apply (content_type_default loads dumps (answers resp_untyped)
           "http://up:9000" "keys" req_keys
           (mkCall GET "http://up:9000/keys" PyNone) resp_untyped).
  - vm_compute; reflexivity.
  - reflexivity.
  - intros k v Hin. simpl in Hin.
    destruct Hin as [Hin | [Hin | []]];
      inversion Hin; subst; vm_compute; discriminate.
Defined.

Lemma outbound_headers_unique_witness :
  exists rv,
    Mitm.all loads dumps (answers resp_lowercase) "http://up:9000" "keys" req_keys
    = Ok rv
    /\ NoDup (map lower_key (resp_headers (finalize rv))).
Proof.
  apply (outbound_headers_unique loads dumps (answers resp_lowercase)
           "http://up:9000" "keys" req_keys
           (mkCall GET "http://up:9000/keys" PyNone) resp_lowercase).
  - vm_compute; reflexivity.
  - reflexivity.
Defined.

Lemma outbound_headers_provenance_witness :
  exists rv,
    Mitm.all loads dumps (answers resp_a1) "http://up:9000" "keys" req_keys = Ok rv
    /\ (forall k v, In (k, v) (resp_headers (finalize rv)) ->
          (k = "Content-Type" /\ v = "text/html; charset=utf-8")
          \/ (k = "Content-Length"
              /\ v = PyStr.of_nat (String.length (resp_data (finalize rv))))
          \/ (In (k, v) (headers resp_a1)
              /\ k <> "Server" /\ k <> "Content-Length"))
    /\ (forall v, ~ In ("Server", v) (resp_headers (finalize rv))).
Proof.
  apply (outbound_headers_provenance loads dumps (answers resp_a1)
           "http://up:9000" "keys" req_keys
           (mkCall GET "http://up:9000/keys" PyNone) resp_a1).
  - vm_compute; reflexivity.
  - reflexivity.
Defined.

Lemma malformed_json_body_is_bad_request_witness :
  upstream_call loads "http://up:9000" "keys" req_bad_json = Raise (Exc BadRequest)
  /\ Mitm.all loads dumps (answers resp_a1) "http://up:9000" "keys" req_bad_json
     = Raise (Exc BadRequest).
Proof.
  apply (malformed_json_body_is_bad_request loads dumps (answers resp_a1)
           "http://up:9000" "keys" req_bad_json JSONDecodeError).
  - reflexivity.
  - vm_compute; reflexivity.
  - reflexivity.
Defined.

Lemma unparsable_exchange_url_fails_request_witness :
  module_init [("TALER_EXCHANGE_URL", bad_exchange_url)] = Ok bad_exchange_url
  /\ Mitm.all loads dumps (answers resp_a1) bad_exchange_url "keys" req_keys
     = Raise (Exc (ValueError "Invalid IPv6 URL")).
Proof.
  apply (unparsable_exchange_url_fails_request loads dumps (answers resp_a1)
           bad_exchange_url "keys" req_keys PyNone
           (mkParse "http" "localhost:5000" "/keys" "" "x=1" "")
           (ValueError "Invalid IPv6 URL")).
  - reflexivity.
  - vm_compute; reflexivity.
  - vm_compute; reflexivity.
Defined.

Lemma root_route_forwards_rewritten_url_witness :
  upstream_call loads "https://exchange.example:8443" "" req_root
  = Ok (mkCall GET "https://exchange.example:8443/?a=1#top" PyNone).
Proof.
  apply (root_route_forwards_rewritten_url loads
           "https://exchange.example:8443" req_root PyNone
           (mkParse "http" "localhost:5000" "/" "" "a=1" "top")
           (mkParse "https" "exchange.example:8443" "" "" "" "")).
  - simpl; discriminate.
  - reflexivity.
  - vm_compute; reflexivity.
  - vm_compute; reflexivity.
Defined.



Lemma untyped_body_not_forwarded_witness :
  call_json (mkCall GET "http://up:9000/keys" PyNone) = PyNone
  /\ prepared_body dumps (mkCall GET "http://up:9000/keys" PyNone) = Ok None.
Proof.
  apply (untyped_body_not_forwarded loads dumps "http://up:9000" "keys"
           req_get_text_plain (mkCall GET "http://up:9000/keys" PyNone)).
  - reflexivity.
  - vm_compute; reflexivity.
Defined.

Lemma v1_missing_content_type_witness :
  MitmV1.all loads (answers resp_untyped) "http://up:9000" jsonify "keys" req_keys
  = MitmV1.KeyError "content-type".
Proof.
  apply (v1_missing_content_type loads (answers resp_untyped) "http://up:9000"
           jsonify "keys" req_keys (mkCall GET "http://up:9000/keys" PyNone)
           resp_untyped).
  - vm_compute; reflexivity.
  - reflexivity.
  - intros k v Hin. simpl in Hin.
    destruct Hin as [Hin | [Hin | []]];
      inversion Hin; subst; vm_compute; discriminate.
Defined.

Lemma v1_other_content_type_gives_empty_object_witness :
  MitmV1.all loads (answers resp_json_charset) "http://up:9000" jsonify "keys"
             req_keys
  = MitmV1.Returned
      (mkFlaskResponse ("{}" ++ String (ascii_of_nat 10) "") 200
         [("Content-Type", "application/json"); ("Content-Length", "3")],
       200%Z).
Proof.
  apply (v1_other_content_type_gives_empty_object loads
           (answers resp_json_charset) "http://up:9000" jsonify "keys" req_keys
           (mkCall GET "http://up:9000/keys" PyNone) resp_json_charset
           "application/json; charset=utf-8").
  - vm_compute; reflexivity.
  - reflexivity.
  - vm_compute; reflexivity.
  - discriminate.
  - vm_compute; reflexivity.
Defined.

Lemma v1_directive_is_ignored_witness :
  MitmV1.all loads (answers resp_a1) "http://up:9000" jsonify "keys"
             req_track_directive
  = MitmV1.Returned
      (mkFlaskResponse (json_a1_dumped ++ String (ascii_of_nat 10) "") 200
         [("Content-Type", "application/json"); ("Content-Length", "9")],
       200%Z)
  /\ MitmV1.all loads (answers resp_bad_json) "http://up:9000" jsonify "keys"
                req_keys
     = MitmV1.Raised (Exc JSONDecodeError).
Proof.
  split.
  - apply (proj1 (v1_directive_is_ignored loads (answers resp_a1)
                    "http://up:9000" jsonify "keys" req_track_directive
                    (mkCall GET "http://up:9000/keys" PyNone) resp_a1
                    eq_refl eq_refl eq_refl)
             (PyDict [("a", PyInt 1)]));
      vm_compute; reflexivity.
  - apply (proj2 (v1_directive_is_ignored loads (answers resp_bad_json)
                    "http://up:9000" jsonify "keys" req_keys
                    (mkCall GET "http://up:9000/keys" PyNone) resp_bad_json
                    eq_refl eq_refl eq_refl)).
    vm_compute; reflexivity.
Defined.

Lemma v1_status_passthrough_witness :
  exists c r,
    upstream_call loads "http://up:9000" "keys" req_keys = Ok c
    /\ answers resp_404 c = Ok r
    /\ 404%Z = status_code r.
Proof.
  apply (v1_status_passthrough loads (answers resp_404) "http://up:9000" jsonify
           "keys" req_keys
           (mkFlaskResponse ("{}" ++ String (ascii_of_nat 10) "") 200
              [("Content-Type", "application/json"); ("Content-Length", "3")],
            404%Z)).
  vm_compute; reflexivity.
Defined.
